(** * Clustering algorithm comparison notebook: a shallow embedding

    The notebook [clustering-algos/Clustering algorithm comparison.ipynb]
    is glue code around numpy, seaborn, matplotlib, scikit-learn and
    hdbscan.  Its cells are embedded here as programs over a signature of
    library calls ([Call]); an interpreter ([run]) executes a program
    against an arbitrary library ([Lib]) and records every call with its
    outcome.  Python values are modelled as the code has them: integer
    labels as [Z], floats by their exact rational value ([Q]), lists as
    [list], classes as an enumeration, the working directory as a finite
    map from file names to contents. *)

From Stdlib Require Import QArith Lqa Sorted.
From stdpp Require Import gmap strings list pretty.

Local Open Scope Z_scope.

(** ** Python values *)

(** An RGB triple such as [(0.0, 0.0, 0.0)]. *)
Definition color : Type := Q * Q * Q.

(** Values that occur as positional or keyword arguments. *)
Inductive pyval : Type :=
| PInt (n : Z)
| PFloat (q : Q)
| PStr (s : string)
| PBool (b : bool)
| PPair (a b : Z)
| PColors (cs : list color).

Definition kwargs : Type := list (string * pyval).

(** Exceptions: the ones the interpreter and numpy raise on their own
    in the notebook's expressions, and whatever a library routine raises. *)
Inductive exn : Type :=
| IndexError
| ValueError
| TypeError
| FileNotFoundError
| OSError
| Raised (cls : string) (msg : string).

(** The outcome of evaluating an expression: [inl] is a raised exception. *)
Definition result (A : Type) : Type := exn + A.

(** A list comprehension [[f x for x in l]] whose element expression can
    raise: elements are evaluated left to right, the first exception wins. *)
Fixpoint comprehension {A B} (f : A -> result B) (l : list A) : result (list B) :=
  match l with
  | [] => inr []
  | x :: t =>
      match f x with
      | inl e => inl e
      | inr y =>
          match comprehension f t with
          | inl e => inl e
          | inr ys => inr (y :: ys)
          end
      end
  end.

(** [l[i]] on a Python list: a negative index counts from the end, an
    index outside [-len, len) raises [IndexError]. *)
Definition py_getitem {A} (l : list A) (i : Z) : result A :=
  let n := Z.of_nat (length l) in
  let j := if i <? 0 then i + n else i in
  if (0 <=? j) && (j <? n) then
    match l !! Z.to_nat j with
    | Some a => inr a
    | None => inl IndexError
    end
  else inl IndexError.

(** ** numpy arrays *)

(** A two-dimensional float array of shape [(length rows, ncols)]; a row
    is one point. *)
Record ndarray : Type := mk_ndarray {
  ncols : nat;
  rows : list (list Q)
}.

(** Every row has [ncols] entries: what numpy guarantees of an array. *)
Definition rectangular (a : ndarray) : bool :=
  forallb (fun r => (length r =? ncols a)%nat) (rows a).

Definition column (a : ndarray) (j : nat) : list Q :=
  map (fun r => nth j r 0%Q) (rows a).

(** [a.T] *)
Definition T (a : ndarray) : ndarray :=
  {| ncols := length (rows a);
     rows := map (column a) (seq 0 (ncols a)) |}.

(** [a[i]] for an integer [i]: the [i]-th row. *)
Definition nd_getitem (a : ndarray) (i : Z) : result (list Q) :=
  py_getitem (rows a) i.

(** [a - c] for a scalar [c], elementwise. *)
Definition nd_sub_scalar (a : ndarray) (c : Q) : ndarray :=
  {| ncols := ncols a;
     rows := map (map (fun x => (x - c)%Q)) (rows a) |}.

(** [np.unique(labels)]: the sorted distinct values. *)
Fixpoint insert_unique (x : Z) (l : list Z) : list Z :=
  match l with
  | [] => [x]
  | y :: t =>
      if x <? y then x :: y :: t
      else if x =? y then y :: t
      else y :: insert_unique x t
  end.

Definition np_unique (l : list Z) : list Z := foldr insert_unique [] l.

(** [a.max()] on an integer array; numpy raises [ValueError] on a
    zero-size array. *)
Definition np_max (l : list Z) : result Z :=
  match l with
  | [] => inl ValueError
  | x :: t => inr (foldl Z.max x t)
  end.

(** numpy integers have a fixed width.  The scalar that [.max()] returns
    has the integer type of the label array, and adding a Python integer
    to it stays in a fixed-width type and wraps around at the end of its
    range (numpy warns of the overflow and goes on).  The type taken here
    is [int64] ([np.intp], the type of the labels of most estimators); for
    the [int32] labels of KMeans numpy 1 adds in [int64] as well and numpy
    2 in [int32], where the same happens at [2^31 - 1].  [int64 z] is
    the value of the type congruent to [z]. *)
Definition int64 (z : Z) : Z := (z + 2 ^ 63) mod 2 ^ 64 - 2 ^ 63.

(** [a + b] on [int64] scalars. *)
Definition int64_add (a b : Z) : Z := int64 (a + b).

(** ** String formatting *)

(** The integer nearest to [q], ties to the even one. *)
Definition round_half_even (q : Q) : Z :=
  let n := Qnum q in
  let d := Z.pos (Qden q) in
  let fl := n / d in
  let r2 := 2 * (n mod d) in
  if r2 <? d then fl
  else if d <? r2 then fl + 1
  else if Z.even fl then fl else fl + 1.

Definition two_digits (n : Z) : string :=
  pretty (Z.to_N (n / 10)) +:+ pretty (Z.to_N (n mod 10)).

(** ['{:.2f}'.format(q)]: the value rounded to hundredths (correctly, ties
    to even), with a minus sign for a negative value. *)
Definition format_2f (q : Q) : string :=
  let h := Z.abs (round_half_even (q * 100)%Q) in
  (if Qnum q <? 0 then "-" else EmptyString)
  +:+ pretty (Z.to_N (h / 100)) +:+ "." +:+ two_digits (h mod 100).

(** ['{}: {:.2f} s'.format(name, dt)] *)
Definition format_runtime (name : string) (dt : Q) : string :=
  name +:+ ": " +:+ format_2f dt +:+ " s".

(** ['min_samples: {}'.format(n)] *)
Definition format_min_samples (n : Z) : string :=
  "min_samples: " +:+ pretty n.

(** ** The library signature *)

(** The estimator classes of [sklearn.cluster] and [hdbscan] that the
    notebook names. *)
Inductive Algo : Type :=
| KMeans
| AffinityPropagation
| MeanShift
| SpectralClustering
| AgglomerativeClustering
| DBSCAN
| HDBSCAN.

(** [algo.__name__] *)
Definition __name__ (a : Algo) : string :=
  match a with
  | KMeans => "KMeans"
  | AffinityPropagation => "AffinityPropagation"
  | MeanShift => "MeanShift"
  | SpectralClustering => "SpectralClustering"
  | AgglomerativeClustering => "AgglomerativeClustering"
  | DBSCAN => "DBSCAN"
  | HDBSCAN => "HDBSCAN"
  end.

(** A reference to an object owned by a library (an estimator, a figure,
    an axes, a data frame). *)
Definition obj : Type := nat.

(** What a file of the working directory holds. *)
Inductive blob : Type :=
| npy_file (a : ndarray)
| raw_file (bytes : string).

(** Every call the notebook makes outside its own expressions. *)
Inductive Call : Type :=
(* the interpreter and IPython *)
| py_import (name : string)
| magic_matplotlib_inline
| magic_run (script : string)
| shell_wget (url out : string)
(* time, numpy *)
| time_time
| np_load (path : string)
| np_random_random (shape : nat * nat)
(* seaborn *)
| sns_set (kw : kwargs)
| sns_set_color_codes
| sns_color_palette (name : string) (n_colors : Z)
| sns_desaturate (c : color) (prop : Q)
(* sklearn.cluster and hdbscan *)
| estimator_new (algo : Algo) (args : list pyval) (kw : kwargs)
| fit_predict (o : obj) (X : ndarray)
| fit (o : obj) (X : ndarray)
| get_labels_ (o : obj)
| get_probabilities_ (o : obj)
| condensed_tree_plot (o : obj) (kw : kwargs)
| condensed_tree_to_pandas (o : obj)
| dataframe_head (df : obj)
| approximate_predict (o : obj) (points : ndarray)
(* matplotlib *)
| plt_figure (kw : kwargs)
| plt_scatter (x y : list Q) (kw : kwargs)
| plt_gca
| plt_legend
| get_axes (o : obj)
| get_xaxis (ax : obj)
| get_yaxis (ax : obj)
| set_visible (axis : obj) (b : bool)
| add_subplot (fig : obj) (nrows ncols index : Z)
| ax_scatter (ax : obj) (x y : list Q) (kw : kwargs)
| ax_text (ax : obj) (x y : Q) (s : string) (kw : kwargs)
| tight_layout (fig : obj).

(** The type of the value a call returns. *)
Definition ret (c : Call) : Type :=
  match c with
  | time_time => Q
  | np_load _ | np_random_random _ => ndarray
  | sns_color_palette _ _ => list color
  | sns_desaturate _ _ => color
  | estimator_new _ _ _ | fit _ _ | condensed_tree_to_pandas _
  | dataframe_head _ | plt_figure _ | plt_gca | get_axes _
  | get_xaxis _ | get_yaxis _ | add_subplot _ _ _ _ => obj
  | fit_predict _ _ | get_labels_ _ => list Z
  | get_probabilities_ _ => list Q
  | approximate_predict _ _ => (list Z * list Q)%type
  | _ => unit
  end.

(** ** Programs *)

(** A cell is a tree of library calls.  [Try] is Python's
    [try: ... except: ...]; the embedding has it so that its absence from
    the notebook is a statement about the notebook. *)
Inductive Prog (A : Type) : Type :=
| Ret (a : A)
| Raise (x : exn)
| Do (c : Call) (k : ret c -> Prog A)
| Try (B : Type) (body : Prog B) (handler : exn -> Prog B) (k : B -> Prog A).

Arguments Ret {A} a.
Arguments Raise {A} x.
Arguments Do {A} c k.
Arguments Try {A B} body handler k.

Fixpoint bind {A B} (p : Prog A) (f : A -> Prog B) : Prog B :=
  match p with
  | Ret a => f a
  | Raise x => Raise x
  | Do c k => Do c (fun r => bind (k r) f)
  | Try body handler k => Try body handler (fun b => bind (k b) f)
  end.

Definition call (c : Call) : Prog (ret c) := Do c Ret.

(** An expression of the notebook's own that can raise. *)
Definition lift {A} (r : result A) : Prog A :=
  match r with
  | inl x => Raise x
  | inr a => Ret a
  end.

(** Sequencing is written with stdpp's monad notation: [x ← p; q]. *)
#[global] Instance Prog_ret : MRet Prog := @Ret.
#[global] Instance Prog_bind : MBind Prog := fun A B f p => bind p f.

(** [for x in l: body x] *)
Fixpoint for_each {A} (l : list A) (body : A -> Prog unit) : Prog unit :=
  match l with
  | [] => Ret tt
  | x :: t => body x;; for_each t body
  end.

(** [[f x for x in l]] where [f] makes library calls. *)
Fixpoint for_collect {A B} (l : list A) (f : A -> Prog B) : Prog (list B) :=
  match l with
  | [] => Ret []
  | x :: t => y ← f x; ys ← for_collect t f; Ret (y :: ys)
  end.

(** [enumerate(l, start)] *)
Fixpoint enumerate {A} (l : list A) (start : Z) : list (Z * A) :=
  match l with
  | [] => []
  | x :: t => (start, x) :: enumerate t (start + 1)
  end.

(** ** Libraries and the world they act on *)

(** Durable storage, that is the files by their path (the notebook names
    its one file relative to the working directory), and whatever state
    the libraries keep (clock, random generator, figures, fitted
    models). *)
Record World (E : Type) : Type := mk_world {
  fs : gmap string blob;
  ext : E
}.
Arguments mk_world {E} fs ext.
Arguments fs {E} w.
Arguments ext {E} w.

(** The routines the notebook consumes.  [lib_call] answers every call
    that is opaque here, and [lib_files] is what such a call does to the
    files while it runs (caches, logs: nothing is assumed of it);
    [lib_fetch] is the network as [wget] sees it;
    [lib_script] is the effect of the script that [%run] executes (it is
    not part of the notebook and may do anything, to the files too);
    [lib_draw] is one draw of numpy's random generator; [lib_palette] is
    seaborn's table of named palettes (a palette has at least one
    colour). *)
Record Lib (E : Type) : Type := mk_lib {
  lib_call : forall c : Call, E -> result (ret c) * E;
  lib_files : Call -> E -> gmap string blob -> gmap string blob;
  lib_fetch : string -> E -> option blob * E;
  lib_script : string -> World E -> result unit * World E;
  lib_draw : E -> Q * E;
  lib_palette : string -> option (color * list color)
}.
Arguments lib_call {E} l c e.
Arguments lib_files {E} l c e files.
Arguments lib_fetch {E} l url e.
Arguments lib_script {E} l script w.
Arguments lib_draw {E} l e.
Arguments lib_palette {E} l name.

(** [n] colours taken from a palette in turn, starting over at its end
    (seaborn: [pal_cycle = cycle(palette)], then [next(pal_cycle)] for
    each of [range(n_colors)]). *)
Definition cycle_take {A} (first : A) (more : list A) (n : nat) : list A :=
  map (fun i => nth (i mod S (length more))%nat (first :: more) first) (seq 0 n).

(** [n] draws of the generator, in order. *)
Fixpoint draw_list {E} (lib : Lib E) (n : nat) (e : E) : list Q * E :=
  match n with
  | O => ([], e)
  | S m =>
      let '(q, e1) := lib_draw lib e in
      let '(qs, e2) := draw_list lib m e1 in
      (q :: qs, e2)
  end.

(** [r] rows of [c] draws each, row by row. *)
Fixpoint draw_rows {E} (lib : Lib E) (r c : nat) (e : E)
  : list (list Q) * E :=
  match r with
  | O => ([], e)
  | S m =>
      let '(row, e1) := draw_list lib c e in
      let '(rest, e2) := draw_rows lib m c e1 in
      (row :: rest, e2)
  end.

(** One call against the world.  [wget -O out] truncates [out] and then
    stores what it fetched, and a shell escape raises nothing; [np.load]
    reads the working directory and returns the array a file holds
    (which exception it raises on a file that holds none depends on
    numpy's version: [OSError] stands for it);
    [np.random.random(size=(r, c))] fills an array of that shape with
    draws; [sns.color_palette(name, n)] cycles through the named palette;
    every other routine is the library's. *)
Definition step {E} (lib : Lib E) (c : Call) (w : World E)
  : result (ret c) * World E :=
  match c as c0 return result (ret c0) * World E with
  | shell_wget url out =>
      let '(b, e) := lib_fetch lib url (ext w) in
      (inr tt,
       {| fs := <[out := match b with
                          | Some content => content
                          | None => raw_file EmptyString
                          end]> (fs w);
          ext := e |})
  | magic_run script => lib_script lib script w
  | np_load path =>
      (match fs w !! path with
       | None => inl FileNotFoundError
       | Some (npy_file a) => if rectangular a then inr a else inl OSError
       | Some (raw_file _) => inl OSError
       end, w)
  | np_random_random shape =>
      let '(rs, e) := draw_rows lib shape.1 shape.2 (ext w) in
      (inr {| ncols := shape.2; rows := rs |}, {| fs := fs w; ext := e |})
  | sns_color_palette name n =>
      (match lib_palette lib name with
       | None => inl ValueError
       | Some (c1, more) => inr (cycle_take c1 more (Z.to_nat n))
       end, w)
  | c0 =>
      let '(r, e) := lib_call lib c0 (ext w) in
      (r, {| fs := lib_files lib c0 (ext w) (fs w); ext := e |})
  end.

(** A call that was made, with what it returned or raised. *)
Record Event : Type := Ev {
  ev_call : Call;
  ev_out : result (ret ev_call)
}.

(** Running a program: the value or the uncaught exception, the world
    afterwards, and the calls made, in order. *)
Fixpoint run {E A} (lib : Lib E) (p : Prog A) (w : World E)
  : result A * World E * list Event :=
  match p with
  | Ret a => (inr a, w, [])
  | Raise x => (inl x, w, [])
  | Do c k =>
      match step lib c w with
      | (inl x, w1) => (inl x, w1, [Ev c (inl x)])
      | (inr v, w1) =>
          let '(r, w2, log) := run lib (k v) w1 in
          (r, w2, Ev c (inr v) :: log)
      end
  | Try body handler k =>
      let '(rb, w1, log1) := run lib body w in
      match rb with
      | inr b =>
          let '(r, w2, log2) := run lib (k b) w1 in (r, w2, log1 ++ log2)
      | inl x =>
          let '(rh, w2, log2) := run lib (handler x) w1 in
          match rh with
          | inr b =>
              let '(r, w3, log3) := run lib (k b) w2 in
              (r, w3, log1 ++ log2 ++ log3)
          | inl y => (inl y, w2, log1 ++ log2)
          end
      end
  end.

(** ** The notebook's cells

    A cell is a program; the names it binds for later cells are its
    result, and the names it reads are its arguments.  Float literals
    are written as the decimals they denote. *)

Local Open Scope Q_scope.

(** Cell 1: imports and plot settings. *)
Definition cell1 : Prog unit :=
  call (py_import "time");;
  call (py_import "hdbscan");;
  call (py_import "numpy");;
  call (py_import "matplotlib.pyplot");;
  call magic_matplotlib_inline;;
  call (py_import "seaborn");;
  call (sns_set [("context", PStr "poster"); ("style", PStr "darkgrid")]);;
  call sns_set_color_codes;;
  call (py_import "sklearn.cluster");;
  call (py_import "sklearn.datasets").

(** Cell 3: [%run sklearn-cluster-demo.py] *)
Definition cell3 : Prog unit :=
  call (magic_run "sklearn-cluster-demo.py").

Definition data_url : string :=
  "https://github.com/scikit-learn-contrib/hdbscan/blob/master/notebooks/clusterable_data.npy?raw=true".

Definition data_file : string := "clusterable_data.npy".

(** Cell 6: [! wget <data_url> -O clusterable_data.npy] *)
Definition cell6 : Prog unit :=
  call (shell_wget data_url data_file).

(** Cell 7: [data = np.load('clusterable_data.npy')] *)
Definition cell7 : Prog ndarray :=
  call (np_load data_file).

(** [frame.axes.get_xaxis().set_visible(False)] and the same for y. *)
Definition hide_axes_of_frame (frame : obj) : Prog unit :=
  ax ← call (get_axes frame);
  xa ← call (get_xaxis ax);
  call (set_visible xa false);;
  ax ← call (get_axes frame);
  ya ← call (get_yaxis ax);
  call (set_visible ya false).

(** [ax.get_xaxis().set_visible(False)] and the same for y. *)
Definition hide_axes (ax : obj) : Prog unit :=
  xa ← call (get_xaxis ax);
  call (set_visible xa false);;
  ya ← call (get_yaxis ax);
  call (set_visible ya false).

(** The argument pair [data.T[0], data.T[1]]. *)
Definition first_two_rows_of_T (data : ndarray) : Prog (list Q * list Q) :=
  x ← lift (nd_getitem (T data) 0);
  y ← lift (nd_getitem (T data) 1);
  Ret (x, y).

(** The rows of [a.T] unpacked into the positional arguments of
    [plt.scatter] (a starred argument, followed by [s=..., c=...]):
    scatter's signature starts [x, y, s, c]; with [s] also given by
    keyword, any number of rows other than two is a [TypeError]. *)
Definition unpack_xy (positional : list (list Q)) : result (list Q * list Q) :=
  match positional with
  | [x; y] => inr (x, y)
  | _ => inl TypeError
  end.

(** Cell 8: the raw data. *)
Definition cell8 (data : ndarray) : Prog unit :=
  call (plt_figure [("figsize", PPair 15 10)]);;
  '(x, y) ← first_two_rows_of_T data;
  call (plt_scatter x y [("c", PStr "b"); ("alpha", PFloat 0.25); ("s", PInt 80)]);;
  frame ← call plt_gca;
  hide_axes_of_frame frame.

(** Cell 10: tuples are (algorithm, algo args, algo kwargs). *)
Definition algo_combos : list (Algo * list pyval * kwargs) :=
  [ (KMeans, [], [("n_clusters", PInt 6)]);
    (AffinityPropagation, [], [("preference", PFloat (-5.0)); ("damping", PFloat 0.95)]);
    (MeanShift, [PFloat 0.175], [("cluster_all", PBool false)]);
    (SpectralClustering, [], [("n_clusters", PInt 6)]);
    (AgglomerativeClustering, [], [("n_clusters", PInt 6); ("linkage", PStr "ward")]);
    (DBSCAN, [], [("eps", PFloat 0.025)]);
    (HDBSCAN, [], [("min_cluster_size", PInt 15)]) ].

Definition plot_kwds : kwargs :=
  [("alpha", PFloat 0.25); ("s", PInt 60); ("linewidths", PInt 0)].

(** [[palette[x] if x >= 0 else noise for x in labels]] *)
Definition label_colors (palette : list color) (noise : color) (labels : list Z)
  : result (list color) :=
  comprehension
    (fun x => if (0 <=? x)%Z then py_getitem palette x else inr noise) labels.

(** Cell 11, the body of the loop over [enumerate(algo_combos, start=1)].
    (The two timestamps are seconds since the epoch, within a factor of
    two of each other, so their binary64 difference is the exact one.) *)
Definition comparison_body (fig : obj) (data : ndarray)
    (it : Z * (Algo * list pyval * kwargs)) : Prog unit :=
  let '(i, (algo, args, algo_kwargs)) := it in
  start_time ← call time_time;
  est ← call (estimator_new algo args algo_kwargs);
  labels ← call (fit_predict est data);
  end_time ← call time_time;
  m ← lift (np_max (np_unique labels));
  palette ← call (sns_color_palette "deep" (int64_add m 1));
  colors ← lift (label_colors palette (0.0, 0.0, 0.0) labels);
  ax ← call (add_subplot fig 4 2 i);
  '(x, y) ← first_two_rows_of_T data;
  call (ax_scatter ax x y (("c", PColors colors) :: plot_kwds));;
  hide_axes ax;;
  call (ax_text ax (-0.5) 0.67
          (format_runtime (__name__ algo) (end_time - start_time))
          [("fontsize", PInt 20)]).

(** Cell 11: loop over algos and fit each one. *)
Definition cell11 (data : ndarray) : Prog unit :=
  fig ← call (plt_figure [("figsize", PPair 20 20)]);
  for_each (enumerate algo_combos 1) (comparison_body fig data);;
  call (tight_layout fig).

(** Cell 15: [hdbs = hdbscan.HDBSCAN(min_cluster_size=20)] *)
Definition cell15 : Prog obj :=
  call (estimator_new HDBSCAN [] [("min_cluster_size", PInt 20)]).

(** Cell 16: [labels = hdbs.fit_predict(data)] *)
Definition cell16 (hdbs : obj) (data : ndarray) : Prog (list Z) :=
  call (fit_predict hdbs data).

(** Cell 17: colour assigned points, leave noise points gray.  Binds
    [color_palette] and [cluster_colors]. *)
Definition cell17 (data : ndarray) (labels : list Z)
  : Prog (list color * list color) :=
  color_palette ←
    call (sns_color_palette "deep" (Z.of_nat (length (np_unique labels))));
  cluster_colors ← lift (label_colors color_palette (0.5, 0.5, 0.5) labels);
  call (plt_figure [("figsize", PPair 15 10)]);;
  '(x, y) ← lift (unpack_xy (rows (T data)));
  call (plt_scatter x y
          [("s", PInt 50); ("c", PColors cluster_colors); ("alpha", PFloat 0.3)]);;
  Ret (color_palette, cluster_colors).

(** Cell 20: the condensed tree. *)
Definition cell20 (hdbs : obj) (color_palette : list color) : Prog unit :=
  call (plt_figure [("figsize", PPair 15 10)]);;
  call (condensed_tree_plot hdbs
          [("select_clusters", PBool true);
           ("selection_palette", PColors color_palette)]).

(** Cell 22: [df = hdbs.condensed_tree_.to_pandas()], [df.head()] *)
Definition cell22 (hdbs : obj) : Prog obj :=
  df ← call (condensed_tree_to_pandas hdbs);
  call (dataframe_head df);;
  Ret df.

Definition min_sample_vals : list Z := [1; 10; 20; 50]%Z.

(** Cell 25, the body of the loop over [enumerate(min_sample_vals, start=1)];
    [clusterer.labels_] is read twice. *)
Definition min_samples_body (fig : obj) (data : ndarray) (it : Z * Z)
  : Prog unit :=
  let '(i, minsamp) := it in
  est ← call (estimator_new HDBSCAN []
                [("min_cluster_size", PInt 50); ("min_samples", PInt minsamp)]);
  clusterer ← call (fit est data);
  counted ← call (get_labels_ clusterer);
  color_palette ← call (sns_color_palette "deep" (Z.of_nat (length counted)));
  labels ← call (get_labels_ clusterer);
  cluster_colors ← lift (label_colors color_palette (0.5, 0.5, 0.5) labels);
  ax ← call (add_subplot fig 2 2 i);
  '(x, y) ← first_two_rows_of_T data;
  call (ax_scatter ax x y (("c", PColors cluster_colors) :: plot_kwds));;
  hide_axes ax;;
  call (ax_text ax (-0.5) 0.67 (format_min_samples minsamp)
          [("fontsize", PInt 20)]).

Definition cell25 (data : ndarray) : Prog unit :=
  fig ← call (plt_figure [("figsize", PPair 20 15)]);
  for_each (enumerate min_sample_vals 1) (min_samples_body fig data);;
  call (tight_layout fig).

(** Cell 27: [hdbs = hdbscan.HDBSCAN(min_cluster_size=20,
    prediction_data=True).fit(data)] *)
Definition cell27 (data : ndarray) : Prog obj :=
  est ← call (estimator_new HDBSCAN []
                [("min_cluster_size", PInt 20); ("prediction_data", PBool true)]);
  call (fit est data).

(** [test_points = np.random.random(size=(50, 2)) - 0.5].  numpy's draws
    are multiples of 2^-53 in [0, 1), so the difference with 0.5 is a
    binary64 value and the machine subtraction is the exact one. *)
Definition gen_test_points : Prog ndarray :=
  raw ← call (np_random_random (50, 2)%nat);
  Ret (nd_sub_scalar raw 0.5).

(** [[sns.desaturate(color_palette[col], sat)
      for col, sat in zip(hdbs.labels_, hdbs.probabilities_)]] *)
Definition desaturate_one (color_palette : list color) (item : Z * Q)
  : Prog color :=
  let '(col, sat) := item in
  c ← lift (py_getitem color_palette col);
  call (sns_desaturate c sat).

Definition desaturated_colors (hdbs : obj) (color_palette : list color)
  : Prog (list color) :=
  labels ← call (get_labels_ hdbs);
  probabilities ← call (get_probabilities_ hdbs);
  for_collect (zip labels probabilities) (desaturate_one color_palette).

(** Cell 28: new points over the training data.  Binds [test_points],
    [color_palette] and [cluster_colors]. *)
Definition cell28 (hdbs : obj) (data : ndarray)
  : Prog (ndarray * list color * list color) :=
  test_points ← gen_test_points;
  color_palette ← call (sns_color_palette "deep" 12);
  cluster_colors ← desaturated_colors hdbs color_palette;
  call (plt_figure [("figsize", PPair 15 10)]);;
  '(x, y) ← first_two_rows_of_T data;
  call (plt_scatter x y (("c", PColors cluster_colors) :: plot_kwds));;
  '(tx, ty) ← lift (unpack_xy (rows (T test_points)));
  call (plt_scatter tx ty
          [("c", PStr "k"); ("s", PInt 60); ("label", PStr "new points")]);;
  call plt_legend;;
  Ret (test_points, color_palette, cluster_colors).

(** Cell 29: [test_labels, strengths =
    hdbscan.approximate_predict(hdbs, test_points)] *)
Definition cell29 (hdbs : obj) (test_points : ndarray)
  : Prog (list Z * list Q) :=
  call (approximate_predict hdbs test_points).

(** [[color_palette[col] if col >= 0 else (0.1, 0.1, 0.1)
      for col in test_labels]] *)
Definition test_colors (color_palette : list color) (test_labels : list Z)
  : result (list color) :=
  label_colors color_palette (0.1, 0.1, 0.1) test_labels.

(** Cell 30: the predicted assignments. *)
Definition cell30 (data test_points : ndarray)
    (color_palette cluster_colors : list color) (test_labels : list Z)
  : Prog unit :=
  colors ← lift (test_colors color_palette test_labels);
  call (plt_figure [("figsize", PPair 15 10)]);;
  '(x, y) ← first_two_rows_of_T data;
  call (plt_scatter x y (("c", PColors cluster_colors) :: plot_kwds));;
  '(tx, ty) ← lift (unpack_xy (rows (T test_points)));
  call (plt_scatter tx ty
          [("c", PColors colors); ("s", PInt 60); ("linewidths", PInt 1);
           ("edgecolors", PStr "k")]).

(** The cells that follow the loading of [data], in order. *)
Definition cells_after_load (data : ndarray) : Prog unit :=
  cell8 data;;
  cell11 data;;
  hdbs ← cell15;
  labels ← cell16 hdbs data;
  '(color_palette, _) ← cell17 data labels;
  cell20 hdbs color_palette;;
  cell22 hdbs;;
  cell25 data;;
  hdbs ← cell27 data;
  '(test_points, color_palette, cluster_colors) ← cell28 hdbs data;
  '(test_labels, _) ← cell29 hdbs test_points;
  cell30 data test_points color_palette cluster_colors test_labels.

(** The whole notebook, run top to bottom. *)
Definition notebook : Prog unit :=
  cell1;;
  cell3;;
  cell6;;
  data ← cell7;
  cells_after_load data.

(** ** Properties of programs *)

(** No [try]/[except] anywhere in the program. *)
Fixpoint handler_free {A} (p : Prog A) : Prop :=
  match p with
  | Ret _ | Raise _ => True
  | Do _ k => forall r, handler_free (k r)
  | Try _ _ _ => False
  end.

(** Every call the program can make satisfies [P]. *)
Fixpoint calls_all (P : Call -> Prop) {A} (p : Prog A) : Prop :=
  match p with
  | Ret _ | Raise _ => True
  | Do c k => P c /\ forall r, calls_all P (k r)
  | Try body handler k =>
      calls_all P body /\ (forall x, calls_all P (handler x))
      /\ forall b, calls_all P (k b)
  end.



Definition raised (ev : Event) (x : exn) : Prop :=
  match ev_out ev with
  | inl y => y = x
  | inr _ => False
  end.

(** The cells, for statements about each of them.  A computing cell
    calls libraries and reads; the two others are the [%run] of the demo
    script and the download. *)
Inductive computing_cell : forall A, Prog A -> Prop :=
| is_cell1 : computing_cell _ cell1
| is_cell7 : computing_cell _ cell7
| is_cell8 data : computing_cell _ (cell8 data)
| is_cell11 data : computing_cell _ (cell11 data)
| is_cell15 : computing_cell _ cell15
| is_cell16 hdbs data : computing_cell _ (cell16 hdbs data)
| is_cell17 data labels : computing_cell _ (cell17 data labels)
| is_cell20 hdbs color_palette : computing_cell _ (cell20 hdbs color_palette)
| is_cell22 hdbs : computing_cell _ (cell22 hdbs)
| is_cell25 data : computing_cell _ (cell25 data)
| is_cell27 data : computing_cell _ (cell27 data)
| is_cell28 hdbs data : computing_cell _ (cell28 hdbs data)
| is_cell29 hdbs test_points : computing_cell _ (cell29 hdbs test_points)
| is_cell30 data test_points color_palette cluster_colors test_labels :
    computing_cell _
      (cell30 data test_points color_palette cluster_colors test_labels).

Inductive notebook_cell : forall A, Prog A -> Prop :=
| is_cell3 : notebook_cell _ cell3
| is_cell6 : notebook_cell _ cell6
| is_computing A p : computing_cell A p -> notebook_cell A p.

Arguments computing_cell {A} p.
Arguments notebook_cell {A} p.

(** ** Traces

    What a completed run of the comparison loop looks like.  The values
    the libraries returned during one pass of the loop: *)
Record Iteration : Type := mk_iteration {
  it_start : Q;            (* first time.time() *)
  it_est : obj;            (* the estimator constructed *)
  it_labels : list Z;      (* .fit_predict(data) *)
  it_end : Q;              (* second time.time() *)
  it_max : Z;              (* np.unique(labels).max() *)
  it_palette : list color; (* sns.color_palette('deep', max + 1) *)
  it_colors : list color;  (* the comprehension over labels *)
  it_ax : obj;             (* fig.add_subplot(4, 2, i) *)
  it_xaxis : obj;
  it_yaxis : obj
}.

Definition hide_axes_log (ax xa ya : obj) : list Event :=
  [ Ev (get_xaxis ax) (inr xa); Ev (set_visible xa false) (inr tt);
    Ev (get_yaxis ax) (inr ya); Ev (set_visible ya false) (inr tt) ].

(** The calls of one pass, in order. *)
Definition comparison_log (fig : obj) (data : ndarray)
    (entry : Z * (Algo * list pyval * kwargs)) (it : Iteration) : list Event :=
  let '(i, (algo, args, algo_kwargs)) := entry in
  [ Ev time_time (inr (it_start it));
    Ev (estimator_new algo args algo_kwargs) (inr (it_est it));
    Ev (fit_predict (it_est it) data) (inr (it_labels it));
    Ev time_time (inr (it_end it));
    Ev (sns_color_palette "deep" (int64_add (it_max it) 1))
       (inr (it_palette it));
    Ev (add_subplot fig 4 2 i) (inr (it_ax it));
    Ev (ax_scatter (it_ax it) (column data 0) (column data 1)
          (("c", PColors (it_colors it)) :: plot_kwds)) (inr tt) ]
  ++ hide_axes_log (it_ax it) (it_xaxis it) (it_yaxis it)
  ++ [ Ev (ax_text (it_ax it) (-0.5) 0.67
             (format_runtime (__name__ algo) (it_end it - it_start it))
             [("fontsize", PInt 20)]) (inr tt) ].

(** How the values of one pass hang together. *)
Definition iteration_ok (it : Iteration) : Prop :=
  np_max (np_unique (it_labels it)) = inr (it_max it) /\
  length (it_palette it) = Z.to_nat (int64_add (it_max it) 1) /\
  label_colors (it_palette it) (0.0, 0.0, 0.0) (it_labels it)
    = inr (it_colors it).

(** The calls of a completed run of cell 11. *)
Definition cell11_log (fig : obj) (data : ndarray) (its : list Iteration)
  : list Event :=
  Ev (plt_figure [("figsize", PPair 20 20)]) (inr fig)
  :: concat (zip_with (comparison_log fig data) (enumerate algo_combos 1) its)
  ++ [Ev (tight_layout fig) (inr tt)].

(** Reading a log: the estimators that were constructed, and the calls
    of [fit_predict]. *)
Definition constructed (ev : Event)
  : option (Algo * list pyval * kwargs * obj) :=
  match ev with
  | Ev (estimator_new algo args kw) (inr o) => Some (algo, args, kw, o)
  | _ => None
  end.

Definition fitted (ev : Event) : option (obj * ndarray) :=
  match ev with
  | Ev (fit_predict o X) _ => Some (o, X)
  | _ => None
  end.

(** The seven algorithms of the comparison. *)
Definition algorithms : list Algo :=
  [KMeans; AffinityPropagation; MeanShift; SpectralClustering;
   AgglomerativeClustering; DBSCAN; HDBSCAN].

(** ** A small library to run the cells against

    The state is a counter: it is the clock, the random generator and
    the source of object references. *)
Definition demo_labels (X : ndarray) : list Z :=
  map (fun pt => match pt with
                 | x :: _ =>
                     if Qle_bool 0 x then 1%Z
                     else if Qle_bool (-0.4) x then 0%Z
                     else (-1)%Z
                 | [] => (-1)%Z
                 end) (rows X).

(** The opaque routines.  ([step] itself answers [np.load],
    [np.random.random], [sns.color_palette], [wget] and [%run]; their
    entries here are never consulted.) *)
Definition demo_call (c : Call) (e : nat) : result (ret c) * nat :=
  match c as c0 return result (ret c0) * nat with
  | time_time => (inr (Z.of_nat e # 8), S e)
  | np_load _ | np_random_random _ => (inl OSError, e)
  | sns_color_palette _ _ => (inr [], e)
  | sns_desaturate c _ => (inr c, e)
  | estimator_new _ _ _ | condensed_tree_to_pandas _ | dataframe_head _
  | plt_figure _ | plt_gca | get_xaxis _ | get_yaxis _
  | add_subplot _ _ _ _ => (inr e, S e)
  | fit o _ | get_axes o => (inr o, e)
  | fit_predict _ X => (inr (demo_labels X), S e)
  | get_labels_ _ => (inr [0; 1; -1; 1]%Z, e)
  | get_probabilities_ _ => (inr [1; 0.5; 0; 0.75], e)
  | approximate_predict _ X =>
      (inr (demo_labels X, map (fun _ => 1) (rows X)), e)
  | py_import _ | magic_matplotlib_inline | magic_run _ | shell_wget _ _
  | sns_set _ | sns_set_color_codes | condensed_tree_plot _ _
  | plt_scatter _ _ _ | plt_legend | set_visible _ _
  | ax_scatter _ _ _ _ | ax_text _ _ _ _ _ | tight_layout _ => (inr tt, e)
  end.

Definition demo_data : ndarray :=
  {| ncols := 2;
     rows := [[0.1; 0.2]; [-0.3; 0.25]; [-0.45; -0.1]; [0.3; -0.2]] |}.

(** seaborn's 'deep' palette as of seaborn 0.8: six colours, here to
    three decimals. *)
Definition deep : color * list color :=
  ((0.298, 0.447, 0.690),
   [(0.333, 0.659, 0.408); (0.769, 0.306, 0.322); (0.506, 0.447, 0.698);
    (0.800, 0.725, 0.455); (0.392, 0.710, 0.804)]).

Definition demo_lib : Lib nat :=
  {| lib_call := demo_call;
     lib_files := fun _ _ files => files;
     lib_fetch := fun _ e => (Some (npy_file demo_data), e);
     lib_script := fun _ w => (inr tt, w);
     lib_draw := fun e => (Z.of_nat (e mod 8) # 8, S e);
     lib_palette := fun name =>
       if String.eqb name "deep" then Some deep else None |}.

Definition demo_world : World nat := {| fs := ∅; ext := 0%nat |}.

(** The working directory once the data file has been downloaded. *)
Definition loaded_world : World nat :=
  {| fs := {[ data_file := npy_file demo_data ]}; ext := 0%nat |}.

(** The colour a successful lookup [palette[col]] returned. *)
Definition palette_at (palette : list color) (col : Z) : color :=
  match py_getitem palette col with
  | inr c => c
  | inl _ => (0.0, 0.0, 0.0)
  end.

(** The calls of a completed run of [desaturated_colors]. *)
Definition desaturated_log (hdbs : obj) (palette : list color)
    (labels : list Z) (probabilities : list Q) (colors : list color)
  : list Event :=
  [ Ev (get_labels_ hdbs) (inr labels);
    Ev (get_probabilities_ hdbs) (inr probabilities) ]
  ++ zip_with (fun item out =>
                 Ev (sns_desaturate (palette_at palette item.1) item.2) (inr out))
       (zip labels probabilities) colors.

(** numpy's contract for its generator: a draw lies in the half-open
    interval [0, 1). *)
Definition draws_in_unit_interval {E} (lib : Lib E) : Prop :=
  forall e, 0 <= (lib_draw lib e).1 /\ (lib_draw lib e).1 < 1.

(** [x] and [y] are the first and the second row of [a.T]. *)
Definition first_two_rows (a : ndarray) (x y : list Q) : Prop :=
  rows (T a) !! 0%nat = Some x /\ rows (T a) !! 1%nat = Some y.

(** An array of points with exactly two coordinates each. *)
Definition two_dimensional (a : ndarray) : Prop :=
  ncols a = 2%nat /\ Forall (fun pt => length pt = 2%nat) (rows a).

(** The datasets a call is given: what is clustered is [data], what is
    predicted is [test_points], and what is plotted is the first and the
    second row of the transpose of one of them. *)
Definition reads_datasets (data test_points : ndarray) (c : Call) : Prop :=
  match c with
  | plt_scatter x y _ | ax_scatter _ x y _ =>
      first_two_rows data x y \/ first_two_rows test_points x y
  | fit_predict _ X | fit _ X => X = data
  | approximate_predict _ X => X = test_points
  | _ => True
  end.

(** The same, the rows given to a scatter call being all the rows there
    are. *)
Definition uses_datasets (data test_points : ndarray) (c : Call) : Prop :=
  match c with
  | plt_scatter x y _ | ax_scatter _ x y _ =>
      rows (T data) = [x; y] \/ rows (T test_points) = [x; y]
  | fit_predict _ X | fit _ X => X = data
  | approximate_predict _ X => X = test_points
  | _ => True
  end.

(** An array with a third coordinate. *)
Definition data_3d : ndarray :=
  {| ncols := 3; rows := [[0.1; 0.2; 0.3]; [-0.3; 0.25; 0.0]] |}.

Definition world_3d : World nat :=
  {| fs := {[ data_file := npy_file data_3d ]}; ext := 0%nat |}.

(** The calls of a completed run of cell 16 followed by cell 17. *)
Definition cell16_17_log (hdbs : obj) (data : ndarray) (labels : list Z)
    (color_palette cluster_colors : list color) (fig : obj) : list Event :=
  [ Ev (fit_predict hdbs data) (inr labels);
    Ev (sns_color_palette "deep" (Z.of_nat (length (np_unique labels))))
       (inr color_palette);
    Ev (plt_figure [("figsize", PPair 15 10)]) (inr fig);
    Ev (plt_scatter (column data 0) (column data 1)
          [("s", PInt 50); ("c", PColors cluster_colors);
           ("alpha", PFloat 0.3)]) (inr tt) ].

(** The values the libraries returned during one pass of cell 25's loop. *)
Record MinSamplesPass : Type := mk_pass {
  ms_est : obj;
  ms_clusterer : obj;         (* .fit(data) *)
  ms_counted : list Z;        (* clusterer.labels_, for len() *)
  ms_palette : list color;
  ms_labels : list Z;         (* clusterer.labels_, for the colours *)
  ms_colors : list color;
  ms_ax : obj;
  ms_xaxis : obj;
  ms_yaxis : obj
}.

Definition min_samples_log (fig : obj) (data : ndarray) (entry : Z * Z)
    (ps : MinSamplesPass) : list Event :=
  let '(i, minsamp) := entry in
  [ Ev (estimator_new HDBSCAN []
          [("min_cluster_size", PInt 50); ("min_samples", PInt minsamp)])
       (inr (ms_est ps));
    Ev (fit (ms_est ps) data) (inr (ms_clusterer ps));
    Ev (get_labels_ (ms_clusterer ps)) (inr (ms_counted ps));
    Ev (sns_color_palette "deep" (Z.of_nat (length (ms_counted ps))))
       (inr (ms_palette ps));
    Ev (get_labels_ (ms_clusterer ps)) (inr (ms_labels ps));
    Ev (add_subplot fig 2 2 i) (inr (ms_ax ps));
    Ev (ax_scatter (ms_ax ps) (column data 0) (column data 1)
          (("c", PColors (ms_colors ps)) :: plot_kwds)) (inr tt) ]
  ++ hide_axes_log (ms_ax ps) (ms_xaxis ps) (ms_yaxis ps)
  ++ [ Ev (ax_text (ms_ax ps) (-0.5) 0.67 (format_min_samples minsamp)
             [("fontsize", PInt 20)]) (inr tt) ].

(** The calls of a completed run of cell 28; [raw] is what
    [np.random.random] returned and [test_points] is [raw - 0.5]. *)
Definition cell28_log (hdbs : obj) (data raw test_points : ndarray)
    (color_palette : list color) (labels : list Z) (probabilities : list Q)
    (cluster_colors : list color) (fig : obj) : list Event :=
  [ Ev (np_random_random (50, 2)%nat) (inr raw);
    Ev (sns_color_palette "deep" 12) (inr color_palette) ]
  ++ desaturated_log hdbs color_palette labels probabilities cluster_colors
  ++ [ Ev (plt_figure [("figsize", PPair 15 10)]) (inr fig);
       Ev (plt_scatter (column data 0) (column data 1)
             (("c", PColors cluster_colors) :: plot_kwds)) (inr tt);
       Ev (plt_scatter (column test_points 0) (column test_points 1)
             [("c", PStr "k"); ("s", PInt 60); ("label", PStr "new points")])
          (inr tt);
       Ev plt_legend (inr tt) ].

(** The calls of a completed run of cell 29 followed by cell 30. *)
Definition cell29_30_log (hdbs : obj) (data test_points : ndarray)
    (cluster_colors : list color) (test_labels : list Z) (strengths : list Q)
    (colors : list color) (fig : obj) : list Event :=
  [ Ev (approximate_predict hdbs test_points) (inr (test_labels, strengths));
    Ev (plt_figure [("figsize", PPair 15 10)]) (inr fig);
    Ev (plt_scatter (column data 0) (column data 1)
          (("c", PColors cluster_colors) :: plot_kwds)) (inr tt);
    Ev (plt_scatter (column test_points 0) (column test_points 1)
          [("c", PColors colors); ("s", PInt 60); ("linewidths", PInt 1);
           ("edgecolors", PStr "k")]) (inr tt) ].

(** The strings a log's [ax.text] calls rendered. *)
Definition rendered_text (ev : Event) : option string :=
  match ev_call ev with
  | ax_text _ _ _ s _ => Some s
  | _ => None
  end.

Definition demo_error : exn :=
  Raised "ValueError" "n_samples=4 should be >= n_clusters=6".

(** A library whose [fit_predict] fails once its counter has reached 8:
    in cell 11, from the second estimator on. *)
Definition failing_call (c : Call) (e : nat) : result (ret c) * nat :=
  match c as c0 return result (ret c0) * nat -> result (ret c0) * nat with
  | fit_predict _ _ => fun other =>
      if (8 <=? e)%nat
      then (inl demo_error, e)
      else other
  | _ => fun other => other
  end (demo_call c e).

Definition failing_lib : Lib nat :=
  {| lib_call := failing_call;
     lib_files := lib_files demo_lib;
     lib_fetch := lib_fetch demo_lib;
     lib_script := lib_script demo_lib;
     lib_draw := lib_draw demo_lib;
     lib_palette := lib_palette demo_lib |}.

(** The same loop as cell 11 with the fit guarded by a handler: what the
    notebook does not do. *)
Definition guarded_fit (est : obj) (data : ndarray) : Prog (list Z) :=
  Try (call (fit_predict est data)) (fun _ => Ret []) Ret.

(** ** Labellings, grids and exceptions: more to say about runs *)


(** The calls of a completed run of cell 25. *)
Definition cell25_log (fig : obj) (data : ndarray)
    (passes : list MinSamplesPass) : list Event :=
  Ev (plt_figure [("figsize", PPair 20 15)]) (inr fig)
  :: concat (zip_with (min_samples_log fig data)
               (enumerate min_sample_vals 1) passes)
  ++ [Ev (tight_layout fig) (inr tt)].

(** Reading a log: the calls of [fit], and the positions asked of
    [add_subplot]. *)
Definition fit_called (ev : Event) : option (obj * ndarray) :=
  match ev with
  | Ev (fit o X) _ => Some (o, X)
  | _ => None
  end.

Definition subplot_index (ev : Event) : option Z :=
  match ev_call ev with
  | add_subplot _ _ _ index => Some index
  | _ => None
  end.

(** matplotlib numbers the cells of an [nrows] by [ncols] grid from 1 to
    [nrows * ncols], and [add_subplot] refuses any other position. *)
Definition subplot_in_grid (c : Call) : Prop :=
  match c with
  | add_subplot _ nrows ncols index => (1 <= index <= nrows * ncols)%Z
  | _ => True
  end.

(** The exceptions a program raises in its own expressions, outside any
    library call, all satisfy [S]. *)
Fixpoint raises_only (S : exn -> Prop) {A} (p : Prog A) : Prop :=
  match p with
  | Ret _ => True
  | Raise x => S x
  | Do _ k => forall r, raises_only S (k r)
  | Try body handler k =>
      raises_only S body /\ (forall x, raises_only S (handler x))
      /\ forall b, raises_only S (k b)
  end.

(** What the notebook's own indexing, [.max()] and argument unpacking
    raise. *)
Definition own_exception (x : exn) : Prop :=
  x = IndexError \/ x = ValueError \/ x = TypeError.

Definition returned (ev : Event) : Prop :=
  match ev_out ev with
  | inr _ => True
  | inl _ => False
  end.

(** sklearn's contract for [fit_predict]: one label per sample. *)
Definition one_label_per_point {E} (lib : Lib E) : Prop :=
  forall o X e labels e',
    lib_call lib (fit_predict o X) e = (inr labels, e') ->
    length labels = length (rows X).

(** A scatter call is given [n] abscissas, [n] ordinates and, where it is
    given a colour list, [n] colours. *)
Definition scatter_sizes (n : nat) (c : Call) : Prop :=
  match c with
  | plt_scatter x y kw | ax_scatter _ x y kw =>
      length x = n /\ length y = n /\
      forall cs, ("c", PColors cs) ∈ kw -> length cs = n
  | _ => True
  end.


(** The calls that construct or train an estimator. *)
Definition trains (c : Call) : Prop :=
  match c with
  | estimator_new _ _ _ | fit_predict _ _ | fit _ _ => True
  | _ => False
  end.

(** Reading a log: the timestamps taken, and the call made immediately
    before each call of [fit_predict]. *)
Definition timestamp (ev : Event) : option Q :=
  match ev with
  | Ev time_time (inr t) => Some t
  | _ => None
  end.

Fixpoint preceding_fit (log : list Event) : list Call :=
  match log with
  | [] => []
  | ev :: rest =>
      match rest with
      | next :: _ =>
          match fitted next with
          | Some _ => [ev_call ev]
          | None => []
          end
      | [] => []
      end ++ preceding_fit rest
  end.

(** Reading a log: the label arrays that [fit_predict] returned, and
    the palettes that seaborn returned with the size asked of it. *)
Definition labels_returned (ev : Event) : option (list Z) :=
  match ev with
  | Ev (fit_predict _ _) (inr labels) => Some labels
  | _ => None
  end.

Definition palette_returned (ev : Event) : option (Z * list color) :=
  match ev with
  | Ev (sns_color_palette _ n) (inr palette) => Some (n, palette)
  | _ => None
  end.

(** A library whose [fit_predict] labels one point with the largest
    [int64]. *)
Definition corner_call (c : Call) (e : nat) : result (ret c) * nat :=
  match c as c0 return result (ret c0) * nat -> result (ret c0) * nat with
  | fit_predict _ _ => fun _ => (inr [0; 2 ^ 63 - 1]%Z, S e)
  | _ => fun other => other
  end (demo_call c e).

Definition corner_lib : Lib nat :=
  {| lib_call := corner_call;
     lib_files := lib_files demo_lib;
     lib_fetch := lib_fetch demo_lib;
     lib_script := lib_script demo_lib;
     lib_draw := lib_draw demo_lib;
     lib_palette := lib_palette demo_lib |}.

(** A network that delivers the array with a third coordinate. *)
Definition wide_lib : Lib nat :=
  {| lib_call := lib_call demo_lib;
     lib_files := lib_files demo_lib;
     lib_fetch := fun _ e => (Some (npy_file data_3d), e);
     lib_script := lib_script demo_lib;
     lib_draw := lib_draw demo_lib;
     lib_palette := lib_palette demo_lib |}.

(** The scatter call of cell 17, the one that is given every row of
    [data.T]. *)
Definition cell17_scatter (c : Call) : Prop :=
  exists x y cluster_colors,
    c = plt_scatter x y
          [("s", PInt 50); ("c", PColors cluster_colors); ("alpha", PFloat 0.3)].

(** What the cells after the load do with [data]: every fit clusters it,
    and the scatter call of cell 17 is made only when it has two
    columns. *)
Definition handles_data (data : ndarray) (c : Call) : Prop :=
  match c with
  | fit_predict _ X | fit _ X => X = data
  | _ => True
  end /\
  (cell17_scatter c -> ncols data = 2%nat).

(** ** The interpreter *)

Section Run.
Context {E : Type} (lib : Lib E).

Lemma run_bind {A B} (p : Prog A) (f : A -> Prog B) (w : World E) :
  run lib (p ≫= f) w =
    let '(r, w1, log1) := run lib p w in
    match r with
    | inl x => (inl x, w1, log1)
    | inr a =>
        let '(r2, w2, log2) := run lib (f a) w1 in (r2, w2, log1 ++ log2)
    end.
Proof.
  unfold mbind, Prog_bind. revert B f w.
  induction p as [A a|A x|A c k IH|A C body IHb handler IHh k IHk];
    intros B f w; simpl.
  - destruct (run lib (f a) w) as [[r w2] l2]. reflexivity.
  - reflexivity.
  - destruct (step lib c w) as [[x|v] w1]; [reflexivity|].
    rewrite IH. destruct (run lib (k v) w1) as [[[x|a] w2] l2]; [reflexivity|].
    destruct (run lib (f a) w2) as [[r3 w3] l3]. reflexivity.
  - destruct (run lib body w) as [[[x|b] w1] l1].
    + destruct (run lib (handler x) w1) as [[[y|b] w2] l2]; [reflexivity|].
      rewrite IHk. destruct (run lib (k b) w2) as [[[z|a] w3] l3].
      * reflexivity.
      * destruct (run lib (f a) w3) as [[r4 w4] l4].
        rewrite <- !app_assoc. reflexivity.
    + rewrite IHk. destruct (run lib (k b) w1) as [[[z|a] w3] l3].
      * reflexivity.
      * destruct (run lib (f a) w3) as [[r4 w4] l4].
        rewrite <- !app_assoc. reflexivity.
Qed.

Lemma run_bind_inr {A B} (p : Prog A) (f : A -> Prog B) w b w' log :
  run lib (p ≫= f) w = (inr b, w', log) ->
  exists a w1 log1 log2,
    run lib p w = (inr a, w1, log1) /\
    run lib (f a) w1 = (inr b, w', log2) /\
    log = log1 ++ log2.
Proof.
  rewrite run_bind. destruct (run lib p w) as [[[x|a] w1] l1]; [discriminate|].
  destruct (run lib (f a) w1) as [[r2 w2] l2] eqn:Hf.
  intros [= -> -> <-]. exists a, w1, l1, l2. auto.
Qed.

Lemma run_call_inr (c : Call) w v w' log :
  run lib (call c) w = (inr v, w', log) ->
  step lib c w = (inr v, w') /\ log = [Ev c (inr v)].
Proof.
  unfold call. simpl. destruct (step lib c w) as [[x|v0] w1]; [discriminate|].
  intros [= -> -> <-]. auto.
Qed.

Lemma run_call (c : Call) w :
  run lib (call c) w =
    match step lib c w with
    | (inl x, w1) => (inl x, w1, [Ev c (inl x)])
    | (inr v, w1) => (inr v, w1, [Ev c (inr v)])
    end.
Proof. unfold call. simpl. destruct (step lib c w) as [[x|v] w1]; reflexivity. Qed.

Lemma run_outcome {A} (p : Prog A) w :
  run lib p w = ((run lib p w).1.1, (run lib p w).1.2, (run lib p w).2).
Proof. destruct (run lib p w) as [[r w'] log]. reflexivity. Qed.

Lemma run_lift_inr {A} (r : result A) w a w' log :
  run lib (lift r) w = (inr a, w', log) -> r = inr a /\ w' = w /\ log = [].
Proof. destruct r; simpl; [discriminate|]. intros [= -> -> <-]. auto. Qed.

Lemma run_ret_inr {A} (a0 : A) w a w' log :
  run lib (Ret a0) w = (inr a, w', log) -> a = a0 /\ w' = w /\ log = [].
Proof. simpl. intros [= -> -> <-]. auto. Qed.

(** A loop that completes ran its body on every element, in order. *)
Lemma run_for_each_inr {A} (l : list A) (body : A -> Prog unit) w u w' log :
  run lib (for_each l body) w = (inr u, w', log) ->
  exists logs,
    log = concat logs /\
    Forall2 (fun x lg => exists w1 w2, run lib (body x) w1 = (inr tt, w2, lg))
      l logs.
Proof.
  revert w log. induction l as [|x t IH]; intros w log; simpl.
  - intros [= _ _ <-]. exists []. split; [reflexivity|constructor].
  - intros H. apply run_bind_inr in H as ([] & w1 & l1 & l2 & H1 & H2 & ->).
    apply IH in H2 as (logs & -> & HF).
    exists (l1 :: logs). split; [reflexivity|].
    constructor; [eauto|assumption].
Qed.
End Run.

Ltac invert_run_step :=
  match goal with
  | H : run _ (_ ≫= _) _ = (inr _, _, _) |- _ =>
      let H1 := fresh "Hrun" in
      let H2 := fresh "Hrun" in
      apply run_bind_inr in H as (? & ? & ? & ? & H1 & H2 & ?)
  | H : run ?lib (call ?c) ?w = (inr ?v, ?w', ?log) |- _ =>
      let Hs := fresh "Hstep" in
      pose proof (run_call_inr lib c w v w' log H) as [Hs ?]; clear H
  | H : run _ (lift _) _ = (inr _, _, _) |- _ =>
      let He := fresh "Heval" in
      apply run_lift_inr in H as (He & ? & ?)
  | H : run _ (Ret _) _ = (inr _, _, _) |- _ =>
      apply run_ret_inr in H as (? & ? & ?)
  | H : run _ (match ?x with (_, _) => _ end) _ = _ |- _ => destruct x
  | H : run _ (match ?x with tt => _ end) _ = _ |- _ => destruct x
  end.

(** Takes a completed run apart into the steps of its calls. *)
Ltac invert_run :=
  repeat invert_run_step;
  cbn [ret] in *;
  repeat match goal with u : unit |- _ => destruct u end;
  simplify_eq.


(** ** Shapes of programs *)

Section Shapes.
Context {A B : Type}.

Lemma handler_free_bind (p : Prog A) (f : A -> Prog B) :
  handler_free p -> (forall a, handler_free (f a)) -> handler_free (p ≫= f).
Proof.
  unfold mbind, Prog_bind. intros Hp Hf.
  induction p as [? a|? x|? c k IH|? C body _ handler _ k _]; simpl in *;
    auto; contradiction.
Qed.

Lemma handler_free_call (c : Call) : handler_free (call c).
Proof. intros r. exact I. Qed.

Lemma handler_free_lift (r : result A) : handler_free (lift r).
Proof. destruct r; exact I. Qed.

Lemma calls_all_bind (P : Call -> Prop) (p : Prog A) (f : A -> Prog B) :
  calls_all P p -> (forall a, calls_all P (f a)) -> calls_all P (p ≫= f).
Proof.
  unfold mbind, Prog_bind. intros Hp Hf.
  induction p as [? a|? x|? c k IH|? C body _ handler _ k IH]; simpl in *;
    auto.
  - destruct Hp as [Hc Hk]. split; auto.
  - destruct Hp as (Hb & Hh & Hk). repeat split; auto.
Qed.

Lemma calls_all_call (P : Call -> Prop) (c : Call) :
  P c -> calls_all P (call c).
Proof. intros Hc. split; [exact Hc|]. intros r. exact I. Qed.

Lemma calls_all_lift (P : Call -> Prop) (r : result A) : calls_all P (lift r).
Proof. destruct r; exact I. Qed.

End Shapes.

Lemma handler_free_for_each {A} (l : list A) (body : A -> Prog unit) :
  (forall x, handler_free (body x)) -> handler_free (for_each l body).
Proof.
  intros Hb. induction l as [|x t IH]; simpl; [exact I|].
  apply handler_free_bind; auto.
Qed.

Lemma calls_all_for_each {A} (P : Call -> Prop) (l : list A)
    (body : A -> Prog unit) :
  (forall x, calls_all P (body x)) -> calls_all P (for_each l body).
Proof.
  intros Hb. induction l as [|x t IH]; simpl; [exact I|].
  apply calls_all_bind; auto.
Qed.


Lemma handler_free_for_collect {A B} (l : list A) (f : A -> Prog B) :
  (forall x, handler_free (f x)) -> handler_free (for_collect l f).
Proof.
  intros Hf. induction l as [|x t IH]; simpl; [exact I|].
  apply handler_free_bind; [apply Hf|]. intros y.
  apply handler_free_bind; [exact IH|]. intros ys. exact I.
Qed.

Lemma calls_all_for_collect {A B} (P : Call -> Prop) (l : list A)
    (f : A -> Prog B) :
  (forall x, calls_all P (f x)) -> calls_all P (for_collect l f).
Proof.
  intros Hf. induction l as [|x t IH]; simpl; [exact I|].
  apply calls_all_bind; [apply Hf|]. intros y.
  apply calls_all_bind; [exact IH|]. intros ys. exact I.
Qed.

(** Walks through a cell, one statement at a time. *)
Ltac walk_handler_free :=
  repeat match goal with
  | |- handler_free (_ ≫= _) => apply handler_free_bind; [|intros ?]
  | |- handler_free (call _) => apply handler_free_call
  | |- handler_free (lift _) => apply handler_free_lift
  | |- handler_free (for_each _ _) => apply handler_free_for_each; intros ?
  | |- handler_free (for_collect _ _) =>
      apply handler_free_for_collect; intros ?
  | |- handler_free (Ret _) => exact I
  | |- handler_free (match ?x with _ => _ end) => destruct x
  end.

Ltac walk_calls_all solve_call :=
  repeat match goal with
  | |- calls_all _ (_ ≫= _) => apply calls_all_bind; [|intros ?]
  | |- calls_all _ (call _) => apply calls_all_call; solve_call
  | |- calls_all _ (lift _) => apply calls_all_lift
  | |- calls_all _ (for_each _ _) => apply calls_all_for_each; intros ?
  | |- calls_all _ (for_collect _ _) => apply calls_all_for_collect; intros ?
  | |- calls_all _ (Ret _) => exact I
  | |- calls_all _ (match ?x with _ => _ end) => destruct x
  end.

Section Uncaught.
Context {E : Type} (lib : Lib E).

(** Without a handler, a call that raises is the last call of the run:
    its exception is the run's outcome, and the world is left as that call
    left it. *)
Lemma uncaught_is_last {A} (p : Prog A) :
  handler_free p ->
  forall w r w' log pre ev post x,
    run lib p w = (r, w', log) ->
    log = pre ++ ev :: post ->
    raised ev x ->
    post = [] /\ r = inl x /\
    exists w0, step lib (ev_call ev) w0 = (ev_out ev, w').
Proof.
  induction p as [? a|? y|? c k IH|? C body _ handler _ k _]; simpl;
    intros Hp w r w' log pre ev post x Hrun Hlog Hev.
  - injection Hrun as <- <- <-. destruct pre; discriminate.
  - injection Hrun as <- <- <-. destruct pre; discriminate.
  - destruct (step lib c w) as [[y|v] w1] eqn:Hstep.
    + injection Hrun as <- <- <-.
      destruct pre as [|e1 [|e2 pre]]; try discriminate.
      injection Hlog as <- <-. unfold raised in Hev; simpl in Hev. subst y.
      repeat split; eauto.
    + destruct (run lib (k v) w1) as [[r2 w2] log2] eqn:Hk.
      injection Hrun as <- <- <-.
      destruct pre as [|e1 pre]; simpl in Hlog.
      * injection Hlog as <- _. unfold raised in Hev; simpl in Hev.
        contradiction.
      * injection Hlog as _ Hlog. eapply IH; eauto.
  - contradiction.
Qed.

(** What holds of every call a program can make holds of every call it
    made. *)
Lemma calls_all_log (P : Call -> Prop) {A} (p : Prog A) :
  calls_all P p -> forall w, Forall (fun ev => P (ev_call ev)) (run lib p w).2.
Proof.
  induction p as [? a|? y|? c k IH|? C body IHb handler IHh k IHk]; simpl;
    intros Hp w.
  - constructor.
  - constructor.
  - destruct Hp as [Hc Hk]. destruct (step lib c w) as [[y|v] w1].
    + repeat constructor. exact Hc.
    + specialize (IH v (Hk v) w1).
      destruct (run lib (k v) w1) as [[r2 w2] log2]. constructor; assumption.
  - destruct Hp as (Hb & Hh & Hk). specialize (IHb Hb w).
    destruct (run lib body w) as [[[y|b] w1] log1]; simpl in IHb.
    + specialize (IHh y (Hh y) w1).
      destruct (run lib (handler y) w1) as [[[z|b] w2] log2]; simpl in IHh.
      * apply Forall_app; auto.
      * specialize (IHk b (Hk b) w2).
        destruct (run lib (k b) w2) as [[r3 w3] log3]. simpl in *.
        rewrite !Forall_app; auto.
    + specialize (IHk b (Hk b) w1).
      destruct (run lib (k b) w1) as [[r3 w3] log3]. simpl in *.
      apply Forall_app; auto.
Qed.


End Uncaught.

Section Traces.
Context {E : Type} (lib : Lib E).

Lemma T_row0 (a : ndarray) x : nd_getitem (T a) 0 = inr x -> x = column a 0.
Proof.
  unfold nd_getitem, T, py_getitem; simpl. rewrite length_map, length_seq.
  destruct (ncols a) as [|n]; simpl; [discriminate|].
  try destruct (_ <? _)%Z; simpl; congruence.
Qed.

Lemma T_row1 (a : ndarray) y : nd_getitem (T a) 1 = inr y -> y = column a 1.
Proof.
  unfold nd_getitem, T, py_getitem; simpl. rewrite length_map, length_seq.
  destruct (ncols a) as [|[|n]]; simpl; try discriminate.
  try destruct (_ <? _)%Z; simpl; congruence.
Qed.

Lemma length_cycle_take {A} (c1 : A) more n :
  length (cycle_take c1 more n) = n.
Proof. unfold cycle_take. now rewrite length_map, length_seq. Qed.

Lemma step_palette name n (w : World E) palette w' :
  step lib (sns_color_palette name n) w = (inr palette, w') ->
  length palette = Z.to_nat n /\ w' = w.
Proof.
  simpl. destruct (lib_palette lib name) as [[c1 more]|]; [|discriminate].
  intros [= <- <-]. split; [apply length_cycle_take|reflexivity].
Qed.

Lemma comparison_body_trace fig data entry w w' log :
  run lib (comparison_body fig data entry) w = (inr tt, w', log) ->
  exists it, log = comparison_log fig data entry it /\ iteration_ok it.
Proof.
  destruct entry as [i [[algo args] algo_kwargs]].
  unfold comparison_body, first_two_rows_of_T, hide_axes. intros H.
  invert_run.
  match goal with H : nd_getitem _ 0 = _ |- _ => apply T_row0 in H as -> end.
  match goal with H : nd_getitem _ 1 = _ |- _ => apply T_row1 in H as -> end.
  match goal with
  | H : step _ (sns_color_palette _ _) _ = _ |- _ =>
      apply step_palette in H as [Hlen _]
  end.
  match goal with
  | Hm : np_max _ = inr ?m, Hc : label_colors ?pal _ ?labels = inr ?cols,
    _ : step _ time_time _ = (inr ?t0, ?wa),
    _ : step _ (estimator_new _ _ _) ?wa = (inr ?est, _),
    _ : step _ time_time _ = (inr ?t1, ?wb),
    _ : step _ (add_subplot _ _ _ _) _ = (inr ?ax, _),
    _ : step _ (get_xaxis _) _ = (inr ?xa, _),
    _ : step _ (get_yaxis _) _ = (inr ?ya, _) |- _ =>
      exists (mk_iteration t0 est labels t1 m pal cols ax xa ya)
  end.
  split; [reflexivity|]. repeat split; assumption.
Qed.

Lemma comparison_loop_trace fig data entries w w' log :
  run lib (for_each entries (comparison_body fig data)) w = (inr tt, w', log) ->
  exists its,
    length its = length entries /\ Forall iteration_ok its /\
    log = concat (zip_with (comparison_log fig data) entries its).
Proof.
  intros H. apply run_for_each_inr in H as (logs & -> & HF).
  induction HF as [|entry lg l ls (w1 & w2 & Hb) _ IH].
  - exists []. repeat split; constructor.
  - destruct IH as (its & Hlen & Hok & Heq).
    apply comparison_body_trace in Hb as (it & -> & Hit).
    exists (it :: its). simpl. rewrite Hlen, Heq. repeat split; auto.
Qed.

(** A completed run of cell 11 is seven passes of the loop body between
    the creation of the figure and its layout. *)
Lemma cell11_trace data w w' log :
  run lib (cell11 data) w = (inr tt, w', log) ->
  exists fig its,
    length its = 7%nat /\ Forall iteration_ok its /\
    log = cell11_log fig data its.
Proof.
  unfold cell11. intros H. invert_run.
  match goal with
  | H : run _ (for_each _ _) _ = _ |- _ =>
      apply comparison_loop_trace in H as (its & Hlen & Hok & ->)
  end.
  eexists _, its. split; [exact Hlen|]. split; [exact Hok|reflexivity].
Qed.
End Traces.

Example demo_cell11_completes :
  (run demo_lib (cell11 demo_data) loaded_world).1.1 = inr tt.
Proof. vm_compute. reflexivity. Qed.

Example demo_cell11_texts :
  omap rendered_text (run demo_lib (cell11 demo_data) loaded_world).2 =
    [ "KMeans: 0.38 s"; "AffinityPropagation: 0.38 s"; "MeanShift: 0.38 s";
      "SpectralClustering: 0.38 s"; "AgglomerativeClustering: 0.38 s";
      "DBSCAN: 0.38 s"; "HDBSCAN: 0.38 s" ]%string.
Proof. vm_compute. reflexivity. Qed.

(** ** The comparison loop *)

(** C1: [algo_combos] lists the seven algorithms KMeans,
    AffinityPropagation, MeanShift, SpectralClustering,
    AgglomerativeClustering, DBSCAN and HDBSCAN, one entry each, in that
    order; a completed run of the fitting loop constructs one estimator per
    entry, with the entry's arguments, in that order, and calls
    [fit_predict] exactly once on each of them, with the dataset. *)
Theorem C1_seven_algorithms_each_fitted_once
    {E} (lib : Lib E) data w w' log :
  run lib (cell11 data) w = (inr tt, w', log) ->
  map (fun combo => combo.1.1) algo_combos = algorithms /\
  NoDup algorithms /\
  exists ests : list obj,
    length ests = 7%nat /\
    omap constructed log = zip algo_combos ests /\
    omap fitted log = map (fun o => (o, data)) ests.
Proof.
  intros H. split; [reflexivity|]. split.
  { unfold algorithms.
    repeat (apply NoDup_cons; split;
            [rewrite ?elem_of_cons, elem_of_nil; intuition discriminate|]).
    apply NoDup_nil_2. }
  apply cell11_trace in H as (fig & its & Hlen & _ & ->).
  exists (map it_est its). rewrite length_map. split; [exact Hlen|].
  do 8 (destruct its as [|? its]; try discriminate Hlen).
  split; reflexivity.
Qed.

Lemma C1_witness :
  exists w' log,
    run demo_lib (cell11 demo_data) loaded_world = (inr tt, w', log) /\
    map (fun combo => combo.1.1) algo_combos = algorithms /\
    NoDup algorithms /\
    exists ests : list obj,
      length ests = 7%nat /\
      omap constructed log = zip algo_combos ests /\
      omap fitted log = map (fun o => (o, demo_data)) ests.
Proof.
  eexists _, _. split; [vm_compute; reflexivity|].
  eapply (C1_seven_algorithms_each_fitted_once demo_lib demo_data loaded_world).
  vm_compute. reflexivity.
Defined.

(** ** The rendered running time *)

(** [round_half_even] is rounding to the nearest integer, a tie going to
    the even neighbour. *)
Lemma round_half_even_nearest (q : Q) :
  q - (1 # 2) <= inject_Z (round_half_even q) /\
  inject_Z (round_half_even q) <= q + (1 # 2) /\
  (inject_Z (round_half_even q) == q + (1 # 2) \/
   inject_Z (round_half_even q) == q - (1 # 2) ->
   Z.even (round_half_even q) = true).
Proof.
  destruct q as [n d]. unfold round_half_even, Qle, Qeq. simpl.
  pose proof (Z.div_mod n (Z.pos d) ltac:(lia)) as Hdm.
  pose proof (Z.mod_pos_bound n (Z.pos d) ltac:(lia)) as Hr.
  set (fl := (n / Z.pos d)%Z) in *. set (r := (n mod Z.pos d)%Z) in *.
  rewrite !Pos2Z.inj_mul.
  destruct (2 * r <? Z.pos d)%Z eqn:H1; [apply Z.ltb_lt in H1|apply Z.ltb_ge in H1].
  { repeat split; try nia; intros [H|H]; exfalso; nia. }
  destruct (Z.pos d <? 2 * r)%Z eqn:H2; [apply Z.ltb_lt in H2|apply Z.ltb_ge in H2].
  { repeat split; try nia; intros [H|H]; exfalso; nia. }
  destruct (Z.even fl) eqn:He.
  - repeat split; try nia; intros _; exact He.
  - repeat split; try nia; intros _.
    rewrite Z.even_add, He. reflexivity.
Qed.

(** ['{:.2f}'.format(q)] written out: the sign, the integer part of the
    hundredths [z] nearest to [100 q], a point and two digits. *)
Lemma format_2f_digits (q : Q) :
  exists (z : Z) (sign : string),
    q * 100 - (1 # 2) <= inject_Z z /\
    inject_Z z <= q * 100 + (1 # 2) /\
    (inject_Z z == q * 100 + (1 # 2) \/ inject_Z z == q * 100 - (1 # 2) ->
     Z.even z = true) /\
    (q < 0 -> sign = "-"%string) /\
    (0 <= q -> sign = EmptyString) /\
    format_2f q
    = (sign +:+ pretty (Z.to_N (Z.abs z / 100)) +:+ "."
       +:+ pretty (Z.to_N (Z.abs z mod 100 / 10))
       +:+ pretty (Z.to_N (Z.abs z mod 100 mod 10)))%string.
Proof.
  exists (round_half_even (q * 100)),
         (if (Qnum q <? 0)%Z then "-"%string else EmptyString).
  destruct (round_half_even_nearest (q * 100)) as (Hlo & Hhi & Htie).
  split; [exact Hlo|]. split; [exact Hhi|]. split; [exact Htie|].
  split; [|split; [|reflexivity]].
  - unfold Qlt. simpl. intros H.
    destruct (Qnum q <? 0)%Z eqn:Hs; [reflexivity|].
    apply Z.ltb_ge in Hs. lia.
  - unfold Qle. simpl. intros H.
    destruct (Qnum q <? 0)%Z eqn:Hs; [|reflexivity].
    apply Z.ltb_lt in Hs. lia.
Qed.

(** One pass of the loop, as the timing sees it. *)
Lemma comparison_log_timed fig data i algo args algo_kwargs it :
  exists middle z sign,
    comparison_log fig data (i, (algo, args, algo_kwargs)) it
    = [ Ev time_time (inr (it_start it));
        Ev (estimator_new algo args algo_kwargs) (inr (it_est it));
        Ev (fit_predict (it_est it) data) (inr (it_labels it));
        Ev time_time (inr (it_end it)) ]
      ++ middle
      ++ [ Ev (ax_text (it_ax it) (-0.5) 0.67
                 (__name__ algo +:+ ": "
                  +:+ (sign +:+ pretty (Z.to_N (Z.abs z / 100)) +:+ "."
                       +:+ pretty (Z.to_N (Z.abs z mod 100 / 10))
                       +:+ pretty (Z.to_N (Z.abs z mod 100 mod 10)))
                  +:+ " s")
                 [("fontsize", PInt 20)]) (inr tt) ] /\
    (it_end it - it_start it) * 100 - (1 # 2) <= inject_Z z /\
    inject_Z z <= (it_end it - it_start it) * 100 + (1 # 2) /\
    (inject_Z z == (it_end it - it_start it) * 100 + (1 # 2) \/
     inject_Z z == (it_end it - it_start it) * 100 - (1 # 2) ->
     Z.even z = true) /\
    (it_end it - it_start it < 0 -> sign = "-"%string) /\
    (0 <= it_end it - it_start it -> sign = EmptyString) /\
    Forall (fun ev =>
              ev_call ev <> time_time /\
              (forall o X, ev_call ev <> fit_predict o X) /\
              (forall o X, ev_call ev <> fit o X) /\
              (forall ax x y s kw, ev_call ev <> ax_text ax x y s kw)) middle /\
    Ev (add_subplot fig 4 2 i) (inr (it_ax it)) ∈ middle.
Proof.
  destruct (format_2f_digits (it_end it - it_start it))
    as (z & sign & Hlo & Hhi & Htie & Hneg & Hpos & Hfmt).
  exists ([ Ev (sns_color_palette "deep" (int64_add (it_max it) 1))
              (inr (it_palette it));
            Ev (add_subplot fig 4 2 i) (inr (it_ax it));
            Ev (ax_scatter (it_ax it) (column data 0) (column data 1)
                  (("c", PColors (it_colors it)) :: plot_kwds)) (inr tt) ]
          ++ hide_axes_log (it_ax it) (it_xaxis it) (it_yaxis it)), z, sign.
  split.
  { unfold comparison_log, format_runtime. rewrite Hfmt. reflexivity. }
  do 5 (split; [assumption|]). split.
  - repeat (constructor;
            [simpl; repeat split; intros; discriminate|]).
    constructor.
  - right. left.
Qed.

(** C2, as stated, fails twice: the call made immediately before
    [fit_predict] is the construction of the estimator, not a timestamp,
    and the rendered text has [": "] between the class name and the
    number. *)
Lemma C2_constructor_and_separator :
  ~ (forall E (lib : Lib E) fig data entry w w' log,
        run lib (comparison_body fig data entry) w = (inr tt, w', log) ->
        Forall (fun c => c = time_time) (preceding_fit log)) /\
  ~ (forall E (lib : Lib E) fig data entry w w' log t0 t1,
        run lib (comparison_body fig data entry) w = (inr tt, w', log) ->
        omap timestamp log = [t0; t1] ->
        omap rendered_text log
        = [(__name__ entry.2.1.1 +:+ format_2f (t1 - t0) +:+ " s")%string]).
Proof.
  set (entry := (1%Z, (KMeans, @nil pyval, [("n_clusters", PInt 6)]))).
  pose proof (run_outcome demo_lib (comparison_body 0%nat demo_data entry)
                loaded_world) as Hrun.
  assert (Ho : (run demo_lib (comparison_body 0%nat demo_data entry)
                  loaded_world).1.1 = inr tt) by (vm_compute; reflexivity).
  rewrite Ho in Hrun. split.
  - intros H. specialize (H _ _ _ _ _ _ _ _ Hrun).
    vm_compute in H. inversion H as [|c l Hc _]. discriminate Hc.
  - intros H.
    assert (Hts : omap timestamp
                    (run demo_lib (comparison_body 0%nat demo_data entry)
                       loaded_world).2 = [0 # 8; 3 # 8])
      by (vm_compute; reflexivity).
    specialize (H _ _ _ _ _ _ _ _ _ _ Hrun Hts).
    vm_compute in H. discriminate H.
Qed.

(** C2, amended: in a completed run of the comparison loop every pass,
    for the seven classes in order, starts with [time.time()], the
    construction of the estimator and [fit_predict] on it, followed at
    once by [time.time()] again; no other timestamp and no other fit is
    made in the pass, and its last call renders, on the pass's subplot,
    the class name, [": "], the difference of the two timestamps to two
    decimal places, and [" s"].  Two decimal places: a minus sign for a
    negative difference, then the digits of the integer [z] of
    hundredths that is nearest to the difference (a tie going to the
    even one), with a point before the last two. *)
Theorem C2_fit_is_timed_and_rendered {E} (lib : Lib E) data w w' log :
  run lib (cell11 data) w = (inr tt, w', log) ->
  exists fig passes,
    log = Ev (plt_figure [("figsize", PPair 20 20)]) (inr fig)
          :: concat passes ++ [Ev (tight_layout fig) (inr tt)] /\
    Forall2
      (fun (entry : Z * Algo * string) pass =>
         let '(i, algo, name) := entry in
         exists args algo_kwargs start_time est labels end_time middle ax
                z sign,
           pass
           = [ Ev time_time (inr start_time);
               Ev (estimator_new algo args algo_kwargs) (inr est);
               Ev (fit_predict est data) (inr labels);
               Ev time_time (inr end_time) ]
             ++ middle
             ++ [ Ev (ax_text ax (-0.5) 0.67
                        (name +:+ ": "
                         +:+ (sign +:+ pretty (Z.to_N (Z.abs z / 100)) +:+ "."
                              +:+ pretty (Z.to_N (Z.abs z mod 100 / 10))
                              +:+ pretty (Z.to_N (Z.abs z mod 100 mod 10)))
                         +:+ " s")
                        [("fontsize", PInt 20)]) (inr tt) ] /\
           (end_time - start_time) * 100 - (1 # 2) <= inject_Z z /\
           inject_Z z <= (end_time - start_time) * 100 + (1 # 2) /\
           (inject_Z z == (end_time - start_time) * 100 + (1 # 2) \/
            inject_Z z == (end_time - start_time) * 100 - (1 # 2) ->
            Z.even z = true) /\
           (end_time - start_time < 0 -> sign = "-"%string) /\
           (0 <= end_time - start_time -> sign = EmptyString) /\
           Forall (fun ev =>
                     ev_call ev <> time_time /\
                     (forall o X, ev_call ev <> fit_predict o X) /\
                     (forall o X, ev_call ev <> fit o X) /\
                     (forall ax' x y s kw, ev_call ev <> ax_text ax' x y s kw))
             middle /\
           Ev (add_subplot fig 4 2 i) (inr ax) ∈ middle)
      [ (1%Z, KMeans, "KMeans"%string);
        (2%Z, AffinityPropagation, "AffinityPropagation"%string);
        (3%Z, MeanShift, "MeanShift"%string);
        (4%Z, SpectralClustering, "SpectralClustering"%string);
        (5%Z, AgglomerativeClustering, "AgglomerativeClustering"%string);
        (6%Z, DBSCAN, "DBSCAN"%string);
        (7%Z, HDBSCAN, "HDBSCAN"%string) ]
      passes.
Proof.
  intros H. apply cell11_trace in H as (fig & its & Hlen & _ & ->).
  exists fig,
    (zip_with (comparison_log fig data) (enumerate algo_combos 1) its).
  split; [reflexivity|].
  do 8 (destruct its as [|? its]; try discriminate Hlen).
  repeat (apply Forall2_cons; split;
          [match goal with
           | |- context [comparison_log fig data (?i, (?algo, ?args, ?kw)) ?it] =>
               destruct (comparison_log_timed fig data i algo args kw it)
                 as (middle & z & sign & Heq & Hlo & Hhi & Htie & Hneg & Hpos
                     & Hmid & Hax);
               exists args, kw, (it_start it), (it_est it), (it_labels it),
                      (it_end it), middle, (it_ax it), z, sign;
               repeat split; assumption
           end|]).
  apply Forall2_nil_2.
Qed.

Lemma C2_witness :
  exists w' log,
    run demo_lib (cell11 demo_data) loaded_world = (inr tt, w', log) /\
    omap rendered_text log
    = [ "KMeans: 0.38 s"; "AffinityPropagation: 0.38 s"; "MeanShift: 0.38 s";
        "SpectralClustering: 0.38 s"; "AgglomerativeClustering: 0.38 s";
        "DBSCAN: 0.38 s"; "HDBSCAN: 0.38 s" ]%string /\
    exists fig passes,
      log = Ev (plt_figure [("figsize", PPair 20 20)]) (inr fig)
            :: concat passes ++ [Ev (tight_layout fig) (inr tt)] /\
      length passes = 7%nat.
Proof.
  pose proof (run_outcome demo_lib (cell11 demo_data) loaded_world) as Hrun.
  assert (Ho : (run demo_lib (cell11 demo_data) loaded_world).1.1 = inr tt)
    by (vm_compute; reflexivity).
  assert (Htext : omap rendered_text
                    (run demo_lib (cell11 demo_data) loaded_world).2
                  = [ "KMeans: 0.38 s"; "AffinityPropagation: 0.38 s";
                      "MeanShift: 0.38 s"; "SpectralClustering: 0.38 s";
                      "AgglomerativeClustering: 0.38 s"; "DBSCAN: 0.38 s";
                      "HDBSCAN: 0.38 s" ]%string)
    by (vm_compute; reflexivity).
  rewrite Ho in Hrun. eexists _, _. split; [exact Hrun|].
  split; [exact Htext|].
  destruct (C2_fit_is_timed_and_rendered demo_lib _ _ _ _ Hrun)
    as (fig & passes & Hlog & Hpasses).
  exists fig, passes. split; [exact Hlog|].
  apply Forall2_length in Hpasses. symmetry. exact Hpasses.
Defined.

(** ** Exceptions *)

Ltac unfold_cells :=
  unfold notebook, cells_after_load, cell1, cell3, cell6, cell7, cell8,
    cell11, cell15, cell16, cell17, cell20, cell22, cell25, cell27, cell28,
    cell29, cell30, comparison_body, min_samples_body, hide_axes,
    hide_axes_of_frame, first_two_rows_of_T, gen_test_points,
    desaturated_colors, desaturate_one.

Lemma computing_cell_handler_free {A} (p : Prog A) :
  computing_cell p -> handler_free p.
Proof. intros []; unfold_cells; walk_handler_free. Qed.

Lemma notebook_handler_free : handler_free notebook.
Proof. unfold_cells; walk_handler_free. Qed.

Example failing_run :
  let '(r, _, log) := run failing_lib (cell11 demo_data) loaded_world in
  r = inl demo_error /\
  (omap constructed log).*1.*1.*1 = [KMeans; AffinityPropagation] /\
  (omap constructed log).*2 = [2%nat; 9%nat] /\
  omap fitted log = [(2%nat, demo_data); (9%nat, demo_data)] /\
  omap rendered_text log = ["KMeans: 0.38 s"%string].
Proof. vm_compute. repeat split; reflexivity. Qed.

Example guarded_fit_recovers :
  (run failing_lib (guarded_fit 0%nat demo_data) {| fs := ∅; ext := 8%nat |}).1.1
  = inr [].
Proof. vm_compute. reflexivity. Qed.

(** C5: no cell of the notebook, and so the notebook as a whole, contains
    an exception handler; when a library call raises during the run of a
    cell or of the notebook, that call is the last one made, the exception
    it raised is the outcome of the run, and the world is as the call left
    it. *)
Theorem C5_uncaught_exceptions_propagate :
  (forall A (p : Prog A), notebook_cell p -> handler_free p) /\
  handler_free notebook /\
  (forall E (lib : Lib E) A (p : Prog A),
      notebook_cell p ->
      forall w r w' log pre ev post x,
        run lib p w = (r, w', log) ->
        log = pre ++ ev :: post ->
        raised ev x ->
        post = [] /\ r = inl x /\
        exists w0, step lib (ev_call ev) w0 = (ev_out ev, w')) /\
  (forall E (lib : Lib E) w r w' log pre ev post x,
      run lib notebook w = (r, w', log) ->
      log = pre ++ ev :: post ->
      raised ev x ->
      post = [] /\ r = inl x /\
      exists w0, step lib (ev_call ev) w0 = (ev_out ev, w')).
Proof.
  assert (Hcells : forall A (p : Prog A), notebook_cell p -> handler_free p).
  { intros A p [| |A' p' Hp]; [intros r; exact I..|].
    apply computing_cell_handler_free, Hp. }
  split; [exact Hcells|]. split; [exact notebook_handler_free|]. split.
  - intros E lib A p Hp w r w' log pre ev post x.
    apply uncaught_is_last, Hcells, Hp.
  - intros E lib w r w' log pre ev post x.
    apply uncaught_is_last, notebook_handler_free.
Qed.

Lemma C5_witness :
  exists r w' pre ev,
    run failing_lib (cell11 demo_data) loaded_world = (r, w', pre ++ [ev]) /\
    ev_call ev = fit_predict 9%nat demo_data /\
    raised ev demo_error /\
    r = inl demo_error.
Proof.
  pose proof (run_outcome failing_lib (cell11 demo_data) loaded_world) as Hrun.
  set (o := run failing_lib (cell11 demo_data) loaded_world) in *.
  set (ev := List.last o.2 (Ev time_time (inr 0))).
  assert (Hlog : o.2 = removelast o.2 ++ [ev]) by (vm_compute; reflexivity).
  assert (Hcall : ev_call ev = fit_predict 9%nat demo_data)
    by (vm_compute; reflexivity).
  assert (Hev : raised ev demo_error) by (vm_compute; reflexivity).
  exists o.1.1, o.1.2, (removelast o.2), ev.
  rewrite <- Hlog. split; [exact Hrun|]. split; [exact Hcall|].
  split; [exact Hev|].
  destruct C5_uncaught_exceptions_propagate as (_ & _ & Hcell & _).
  destruct (Hcell nat failing_lib unit (cell11 demo_data)
              (is_computing _ _ (is_cell11 demo_data))
              loaded_world o.1.1 o.1.2 o.2 (removelast o.2) ev [] demo_error
              Hrun Hlog Hev) as (_ & Hr & _).
  exact Hr.
Defined.

(** ** Durable storage *)





Example demo_download :
  fs (run demo_lib cell6 demo_world).1.2 !! data_file
  = Some (npy_file demo_data).
Proof. vm_compute. reflexivity. Qed.




(** ** Colour lookups *)

Lemma elem_of_insert_unique (x y : Z) (l : list Z) :
  y ∈ insert_unique x l <-> y = x \/ y ∈ l.
Proof.
  induction l as [|z t IH]; simpl.
  - rewrite list_elem_of_singleton, elem_of_nil. tauto.
  - destruct (x <? z)%Z eqn:Hlt; [rewrite !elem_of_cons; tauto|].
    destruct (x =? z)%Z eqn:Heq.
    + apply Z.eqb_eq in Heq. subst z. rewrite !elem_of_cons. tauto.
    + rewrite !elem_of_cons, IH. tauto.
Qed.

Lemma elem_of_np_unique (y : Z) (l : list Z) : y ∈ np_unique l <-> y ∈ l.
Proof.
  induction l as [|x t IH]; simpl; [reflexivity|].
  rewrite elem_of_insert_unique, elem_of_cons, IH. reflexivity.
Qed.




Lemma np_unique_nil (labels : list Z) : np_unique labels = [] -> labels = [].
Proof.
  destruct labels as [|x t]; [reflexivity|]. intros H.
  assert (Hx : x ∈ np_unique (x :: t)) by (apply elem_of_np_unique; left).
  rewrite H in Hx. inversion Hx.
Qed.

Lemma py_getitem_nonneg {A} (l : list A) (i : Z) :
  (0 <= i < Z.of_nat (length l))%Z ->
  exists a, py_getitem l i = inr a /\ l !! Z.to_nat i = Some a.
Proof.
  intros Hi. unfold py_getitem.
  destruct (i <? 0)%Z eqn:Hneg; [lia|].
  destruct (0 <=? i)%Z eqn:H0; [|lia].
  destruct (i <? Z.of_nat (length l))%Z eqn:Hn; [|lia]. simpl.
  destruct (l !! Z.to_nat i) as [a|] eqn:Hl; [eauto|].
  apply lookup_ge_None in Hl. lia.
Qed.

(** A successful lookup is within the list. *)
Lemma py_getitem_inr {A} (l : list A) (i : Z) (a : A) :
  py_getitem l i = inr a ->
  (- Z.of_nat (length l) <= i < Z.of_nat (length l))%Z.
Proof.
  unfold py_getitem. destruct (i <? 0)%Z eqn:Hneg.
  - destruct ((0 <=? i + _) && _)%Z eqn:Hb; [|discriminate].
    apply andb_prop in Hb as [H1 H2]. lia.
  - destruct ((0 <=? i) && _)%Z eqn:Hb; [|discriminate].
    apply andb_prop in Hb as [H1 H2]. lia.
Qed.

Lemma py_getitem_inl {A} (l : list A) (i : Z) (x : exn) :
  py_getitem l i = inl x ->
  x = IndexError /\
  ((i < - Z.of_nat (length l))%Z \/ (Z.of_nat (length l) <= i)%Z).
Proof.
  unfold py_getitem.
  destruct (i <? 0)%Z eqn:Hneg.
  - destruct ((0 <=? i + _) && _)%Z eqn:Hb.
    + apply andb_prop in Hb as [H1 H2].
      destruct (l !! Z.to_nat (i + Z.of_nat (length l))) eqn:Hl;
        [discriminate|]. apply lookup_ge_None in Hl. lia.
    + intros [= <-]. split; [reflexivity|].
      apply andb_false_iff in Hb as [Hb|Hb]; lia.
  - destruct ((0 <=? i) && _)%Z eqn:Hb.
    + apply andb_prop in Hb as [H1 H2].
      destruct (l !! Z.to_nat i) eqn:Hl; [discriminate|].
      apply lookup_ge_None in Hl. lia.
    + intros [= <-]. split; [reflexivity|].
      apply andb_false_iff in Hb as [Hb|Hb]; lia.
Qed.



Example all_noise :
  np_max (np_unique [-1; -1; -1]%Z) = inr (-1)%Z /\
  cycle_take deep.1 deep.2 (Z.to_nat (-1 + 1)) = [] /\
  label_colors [] (0.0, 0.0, 0.0) [-1; -1; -1]%Z
  = inr [(0.0, 0.0, 0.0); (0.0, 0.0, 0.0); (0.0, 0.0, 0.0)].
Proof. repeat split; reflexivity. Qed.





Example corner_run :
  let '(r, _, log) :=
    run corner_lib
      (comparison_body 0%nat demo_data (1%Z, (KMeans, [], [("n_clusters", PInt 6)])))
      loaded_world in
  r = inl IndexError /\
  omap labels_returned log = [[0; 2 ^ 63 - 1]%Z] /\
  omap palette_returned log = [((- 2 ^ 63)%Z, [])] /\
  omap subplot_index log = [].
Proof. vm_compute. repeat split; reflexivity. Qed.




(** ** The test points *)

Section Generator.
Context {E : Type} (lib : Lib E).

Lemma draw_list_length n e : length (draw_list lib n e).1 = n.
Proof.
  revert e. induction n as [|n IH]; intros e; simpl; [reflexivity|].
  destruct (lib_draw lib e) as [q e1]. specialize (IH e1).
  destruct (draw_list lib n e1) as [qs e2]. simpl in *. congruence.
Qed.

Lemma draw_list_range n e :
  draws_in_unit_interval lib ->
  Forall (fun q => 0 <= q /\ q < 1) (draw_list lib n e).1.
Proof.
  intros Hdraw. revert e. induction n as [|n IH]; intros e; simpl;
    [constructor|].
  pose proof (Hdraw e) as Hq. destruct (lib_draw lib e) as [q e1].
  specialize (IH e1). destruct (draw_list lib n e1) as [qs e2].
  constructor; assumption.
Qed.

Lemma draw_rows_shape r c e :
  length (draw_rows lib r c e).1 = r /\
  Forall (fun row => length row = c) (draw_rows lib r c e).1.
Proof.
  revert e. induction r as [|r IH]; intros e; simpl;
    [split; [reflexivity|constructor]|].
  pose proof (draw_list_length c e) as Hrow.
  destruct (draw_list lib c e) as [row e1]. destruct (IH e1) as [Hlen Hall].
  destruct (draw_rows lib r c e1) as [rest e2]. simpl in *.
  split; [congruence|constructor; assumption].
Qed.

Lemma draw_rows_range r c e :
  draws_in_unit_interval lib ->
  Forall (Forall (fun q => 0 <= q /\ q < 1)) (draw_rows lib r c e).1.
Proof.
  intros Hdraw. revert e. induction r as [|r IH]; intros e; simpl;
    [constructor|].
  pose proof (draw_list_range c e Hdraw) as Hrow.
  destruct (draw_list lib c e) as [row e1]. specialize (IH e1).
  destruct (draw_rows lib r c e1) as [rest e2].
  constructor; assumption.
Qed.

(** The generator always returns, with one library call. *)
Lemma gen_test_points_run w :
  run lib gen_test_points w =
    (inr (nd_sub_scalar
            {| ncols := 2; rows := (draw_rows lib 50 2 (ext w)).1 |} 0.5),
     {| fs := fs w; ext := (draw_rows lib 50 2 (ext w)).2 |},
     [Ev (np_random_random (50, 2)%nat)
         (inr {| ncols := 2; rows := (draw_rows lib 50 2 (ext w)).1 |})]).
Proof.
  unfold gen_test_points. rewrite run_bind.
  rewrite (run_call lib (np_random_random (50, 2)%nat)).
  unfold step. cbn [fst snd].
  destruct (draw_rows lib 50 2 (ext w)) as [rs e]. reflexivity.
Qed.

(** Its shape does not depend on what the draws return. *)
Lemma gen_test_points_shape w pts w' log :
  run lib gen_test_points w = (inr pts, w', log) ->
  ncols pts = 2%nat /\ length (rows pts) = 50%nat /\
  Forall (fun pt => length pt = 2%nat) (rows pts).
Proof.
  rewrite gen_test_points_run. intros [= <- _ _].
  destruct (draw_rows_shape 50 2 (ext w)) as [Hlen Hall].
  simpl. rewrite length_map. split; [reflexivity|]. split; [exact Hlen|].
  apply List.Forall_map. eapply Forall_impl; [exact Hall|].
  intros row Hrow. rewrite length_map. exact Hrow.
Qed.

(** C10: the generator returns 50 points of 2 coordinates each, and,
    numpy's draws lying in [0, 1), every coordinate lies in the half-open
    interval [-0.5, 0.5). *)
Theorem C10_test_points_shape_and_range :
  draws_in_unit_interval lib ->
  forall w, exists pts w' log,
    run lib gen_test_points w = (inr pts, w', log) /\
    length (rows pts) = 50%nat /\
    ncols pts = 2%nat /\
    Forall (fun pt => length pt = 2%nat /\
                      Forall (fun x => -0.5 <= x /\ x < 0.5) pt) (rows pts).
Proof.
  intros Hdraw w. eexists _, _, _. split; [apply gen_test_points_run|].
  destruct (draw_rows_shape 50 2 (ext w)) as [Hlen Hall].
  pose proof (draw_rows_range 50 2 (ext w) Hdraw) as Hrange.
  simpl. rewrite length_map. split; [exact Hlen|]. split; [reflexivity|].
  apply List.Forall_map.
  rewrite Forall_forall in *. intros row Hrow.
  rewrite length_map. split; [apply Hall, Hrow|].
  apply List.Forall_map. eapply Forall_impl; [apply Hrange, Hrow|].
  intros q [H0 H1]. simpl. split; lra.
Qed.
End Generator.

Lemma demo_draws : draws_in_unit_interval demo_lib.
Proof.
  intros e. unfold Qle, Qlt. simpl.
  pose proof (Nat.mod_upper_bound e 8). lia.
Defined.

Lemma C10_witness :
  draws_in_unit_interval demo_lib /\
  exists pts w' log,
    run demo_lib gen_test_points demo_world = (inr pts, w', log) /\
    length (rows pts) = 50%nat /\
    ncols pts = 2%nat /\
    Forall (fun pt => length pt = 2%nat /\
                      Forall (fun x => -0.5 <= x /\ x < 0.5) pt) (rows pts).
Proof.
  split; [exact demo_draws|].
  exact (C10_test_points_shape_and_range demo_lib demo_draws demo_world).
Defined.

(** ** The prediction section *)

Section Prediction.
Context {E : Type} (lib : Lib E).


Lemma label_colors_inl (palette : list color) (noise : color)
    (labels : list Z) (x : exn) :
  label_colors palette noise labels = inl x -> x = IndexError.
Proof.
  unfold label_colors. induction labels as [|l t IH]; simpl; [discriminate|].
  destruct (0 <=? l)%Z.
  - destruct (py_getitem palette l) as [e|c] eqn:Hl.
    + intros [= <-]. apply py_getitem_inl in Hl as [-> _]. reflexivity.
    + destruct (comprehension _ t) as [e|cs]; [|discriminate].
      intros [= <-]. apply IH. reflexivity.
  - destruct (comprehension _ t) as [e|cs]; [|discriminate].
    intros [= <-]. apply IH. reflexivity.
Qed.

Lemma desaturate_loop_trace palette items w colors w' log :
  run lib (for_collect items (desaturate_one palette)) w
  = (inr colors, w', log) ->
  log = zip_with (fun item out =>
                    Ev (sns_desaturate (palette_at palette item.1) item.2)
                       (inr out)) items colors /\
  length colors = length items /\
  Forall (fun item =>
            (- Z.of_nat (length palette) <= item.1
             < Z.of_nat (length palette))%Z) items.
Proof.
  revert w colors log.
  induction items as [|[col sat] t IH]; intros w colors log;
    cbn [for_collect]; intros H.
  - apply run_ret_inr in H as (-> & _ & ->). repeat split; constructor.
  - invert_run.
    match goal with
    | H : run _ (for_collect _ _) _ = _ |- _ =>
        apply IH in H as (-> & Hlen & HF)
    end.
    match goal with
    | H : run _ (desaturate_one _ _) _ = _ |- _ =>
        unfold desaturate_one in H
    end.
    invert_run.
    match goal with
    | H : py_getitem _ _ = inr _ |- _ =>
        pose proof (py_getitem_inr _ _ _ H) as Hrange;
        unfold palette_at; simpl; rewrite H
    end.
    simpl. rewrite app_nil_r, Hlen. repeat split. constructor; assumption.
Qed.

Lemma desaturated_colors_trace hdbs palette w colors w' log :
  run lib (desaturated_colors hdbs palette) w = (inr colors, w', log) ->
  exists labels probabilities,
    log = desaturated_log hdbs palette labels probabilities colors /\
    length colors = length (zip labels probabilities) /\
    Forall (fun x => (- Z.of_nat (length palette) <= x
                      < Z.of_nat (length palette))%Z)
      (zip labels probabilities).*1.
Proof.
  unfold desaturated_colors. intros H. invert_run.
  match goal with
  | H : run _ (for_collect _ _) _ = _ |- _ =>
      apply desaturate_loop_trace in H as (-> & Hlen & HF)
  end.
  eexists _, _. split; [reflexivity|]. split; [exact Hlen|].
  apply Forall_fmap. exact HF.
Qed.
End Prediction.

Example label_twelve_is_out_of_bounds :
  test_colors (cycle_take deep.1 deep.2 12) [0; 3; 12; -1]%Z = inl IndexError /\
  (run demo_lib (desaturate_one (cycle_take deep.1 deep.2 12) ((-1)%Z, 1))
     demo_world).1.1 = inr (0.392, 0.710, 0.804).
Proof. vm_compute. split; reflexivity. Qed.



(** ** Dimensions *)

Lemma py_getitem_lookup {A} (l : list A) (i : Z) (a : A) :
  (0 <= i)%Z -> py_getitem l i = inr a -> l !! Z.to_nat i = Some a.
Proof.
  intros Hi. unfold py_getitem. destruct (i <? 0)%Z eqn:Hneg; [lia|].
  destruct ((0 <=? i) && _)%Z; [|discriminate].
  destruct (l !! Z.to_nat i); congruence.
Qed.

Lemma unpack_xy_T (a : ndarray) (x y : list Q) :
  unpack_xy (rows (T a)) = inr (x, y) ->
  ncols a = 2%nat /\ first_two_rows a x y.
Proof.
  unfold first_two_rows. intros H.
  assert (Hrows : rows (T a) = [x; y]).
  { destruct (rows (T a)) as [|x' [|y' [|z t]]]; simpl in H; congruence. }
  rewrite Hrows. split; [|split; reflexivity].
  apply (f_equal length) in Hrows. simpl in Hrows.
  rewrite length_map, length_seq in Hrows. exact Hrows.
Qed.

Lemma calls_all_bind_lift {A B} (P : Call -> Prop) (r : result A)
    (f : A -> Prog B) :
  (forall a, r = inr a -> calls_all P (f a)) -> calls_all P (lift r ≫= f).
Proof. destruct r as [x|a]; simpl; [intros _; exact I|]. intros H. apply H. reflexivity. Qed.

Lemma calls_all_first_two_rows {B} (P : Call -> Prop) (data : ndarray)
    (f : list Q * list Q -> Prog B) :
  (forall x y, first_two_rows data x y -> calls_all P (f (x, y))) ->
  calls_all P (first_two_rows_of_T data ≫= f).
Proof.
  intros H. unfold first_two_rows_of_T, nd_getitem.
  destruct (py_getitem (rows (T data)) 0) as [e|x] eqn:Hx; [exact I|].
  destruct (py_getitem (rows (T data)) 1) as [e|y] eqn:Hy; [exact I|].
  apply H. split.
  - apply (py_getitem_lookup _ 0) in Hx; [exact Hx|lia].
  - apply (py_getitem_lookup _ 1) in Hy; [exact Hy|lia].
Qed.

(** Cells 8 and 11 index [data.T] and so accept wider data; cell 17
    does not. *)
Example three_columns_are_plotted_as_two :
  (run demo_lib cell7 world_3d).1.1 = inr data_3d /\
  (run demo_lib (cell8 data_3d) world_3d).1.1 = inr tt /\
  (run demo_lib (cell11 data_3d) world_3d).1.1 = inr tt /\
  (run demo_lib (cell17 data_3d [0; 1]%Z) world_3d).1.1 = inl TypeError.
Proof. vm_compute. repeat split; reflexivity. Qed.

Ltac solve_reads :=
  simpl;
  first
    [ exact I
    | reflexivity
    | left; assumption
    | right; assumption
    | left;
      match goal with
      | H : unpack_xy _ = _ |- _ => apply unpack_xy_T in H as [_ H]; exact H
      end
    | right;
      match goal with
      | H : unpack_xy _ = _ |- _ => apply unpack_xy_T in H as [_ H]; exact H
      end ].

Ltac walk_reads :=
  repeat match goal with
  | |- calls_all _ (first_two_rows_of_T _ ≫= _) =>
      apply calls_all_first_two_rows; intros ? ? ?
  | |- calls_all _ (lift (unpack_xy _) ≫= _) =>
      apply calls_all_bind_lift; intros [? ?] ?
  | |- calls_all _ (_ ≫= _) => apply calls_all_bind; [|intros ?]
  | |- calls_all _ (call _) => apply calls_all_call; solve_reads
  | |- calls_all _ (lift _) => apply calls_all_lift
  | |- calls_all _ (for_each _ _) => apply calls_all_for_each; intros ?
  | |- calls_all _ (for_collect _ _) => apply calls_all_for_collect; intros ?
  | |- calls_all _ (Ret _) => exact I
  | |- calls_all _ (match ?x with _ => _ end) => destruct x
  end.

Ltac unfold_cell_bodies :=
  unfold cell1, cell3, cell6, cell7, cell8, cell11, cell15, cell16, cell17,
    cell20, cell22, cell25, cell27, cell29, cell30, comparison_body,
    min_samples_body, hide_axes, hide_axes_of_frame, desaturated_colors,
    desaturate_one.

(** For every run of a cell among the hypotheses, whatever its calls were
    given was one of the two datasets. *)
Ltac logs_read data tp :=
  repeat match goal with
  | H : run ?lib ?p ?w = (_, _, ?l) |- _ =>
      lazymatch goal with
      | _ : Forall _ l |- _ => fail
      | _ => idtac
      end;
      let HF := fresh "HF" in
      assert (HF : Forall (fun ev => reads_datasets data tp (ev_call ev)) l);
      [ let Hc := fresh in
        pose proof (fun Hp => calls_all_log lib (reads_datasets data tp) p Hp w)
          as Hc;
        rewrite H in Hc; apply Hc; unfold_cell_bodies; walk_reads | ]
  end.

Section Dimensions.
Context {E : Type} (lib : Lib E).

Lemma rectangular_rows (a : ndarray) :
  rectangular a = true -> Forall (fun pt => length pt = ncols a) (rows a).
Proof.
  unfold rectangular. rewrite forallb_forall, Forall_forall.
  intros H pt Hpt. apply Nat.eqb_eq, H, list_elem_of_In, Hpt.
Qed.

Lemma cell7_loads w data w' log :
  run lib cell7 w = (inr data, w', log) ->
  log = [Ev (np_load data_file) (inr data)] /\ rectangular data = true.
Proof.
  unfold cell7. intros H. invert_run. split; [reflexivity|].
  match goal with H : step _ _ _ = _ |- _ => simpl in H end.
  destruct (fs w !! data_file) as [[a|bytes]|]; try discriminate.
  destruct (rectangular a) eqn:Ha; congruence.
Qed.

(** Cell 17 gives scatter all the rows of [data.T]: it completes only on
    data of exactly two columns. *)
Lemma cell17_needs_two_columns data labels w r w' log :
  run lib (cell17 data labels) w = (inr r, w', log) -> ncols data = 2%nat.
Proof.
  unfold cell17. intros H. invert_run.
  match goal with
  | H : unpack_xy _ = _ |- _ => apply unpack_xy_T in H as [H _]; exact H
  end.
Qed.

Lemma first_two_rows_are_all (a : ndarray) (x y : list Q) :
  ncols a = 2%nat -> first_two_rows a x y -> rows (T a) = [x; y].
Proof.
  unfold first_two_rows, T. simpl. intros -> [Hx Hy]. simpl in *. congruence.
Qed.

Lemma reads_uses (data tp : ndarray) (c : Call) :
  ncols data = 2%nat -> ncols tp = 2%nat ->
  reads_datasets data tp c -> uses_datasets data tp c.
Proof.
  intros Hd Ht. destruct c; simpl; auto;
    (intros [H|H]; [left|right]; apply first_two_rows_are_all; assumption).
Qed.

(** The part of cell 28 after the test points. *)
Lemma cell28_parts hdbs data w test_points color_palette cluster_colors
    w' log :
  run lib (cell28 hdbs data) w
  = (inr (test_points, color_palette, cluster_colors), w', log) ->
  exists raw rest,
    test_points = nd_sub_scalar raw 0.5 /\
    ncols test_points = 2%nat /\ length (rows test_points) = 50%nat /\
    Forall (fun pt => length pt = 2%nat) (rows test_points) /\
    log = Ev (np_random_random (50, 2)%nat) (inr raw) :: rest /\
    Forall (fun ev => reads_datasets data test_points (ev_call ev)) rest.
Proof.
  unfold cell28. intros H.
  apply run_bind_inr in H as (tp & w1 & log1 & rest & Hgen & Hrest & ->).
  pose proof (gen_test_points_shape lib _ _ _ _ Hgen) as (Hn & Hlen & Hall).
  rewrite gen_test_points_run in Hgen.
  set (raw := {| ncols := 2; rows := (draw_rows lib 50 2 (ext w)).1 |}) in *.
  clearbody raw. injection Hgen as Htp _ <-.
  match type of Hrest with
  | run _ ?p ?w0 = _ =>
      pose proof (fun Hp => calls_all_log lib (reads_datasets data tp) p Hp w0)
        as HF
  end.
  rewrite Hrest in HF. cbv beta in Hrest.
  assert (test_points = tp) as -> by (invert_run; reflexivity).
  exists raw, rest. split; [symmetry; exact Htp|].
  split; [exact Hn|]. split; [exact Hlen|]. split; [exact Hall|].
  split; [reflexivity|].
  apply HF. unfold_cell_bodies. walk_reads.
Qed.

(** Every event of a log records a call that was made, with what it
    returned or raised. *)
Lemma log_steps {A} (p : Prog A) w :
  Forall (fun ev => exists w0 w1, step lib (ev_call ev) w0 = (ev_out ev, w1))
    (run lib p w).2.
Proof.
  revert w.
  induction p as [? a|? y|? c k IH|? C body IHb handler IHh k IHk]; simpl;
    intros w.
  - constructor.
  - constructor.
  - destruct (step lib c w) as [[y|v] w1] eqn:Hs.
    + repeat constructor. simpl. eauto.
    + specialize (IH v w1).
      destruct (run lib (k v) w1) as [[r2 w2] log2].
      constructor; [simpl; eauto|exact IH].
  - specialize (IHb w).
    destruct (run lib body w) as [[[y|b] w1] log1]; simpl in IHb.
    + specialize (IHh y w1).
      destruct (run lib (handler y) w1) as [[[z|b] w2] log2]; simpl in IHh.
      * apply Forall_app; auto.
      * specialize (IHk b w2).
        destruct (run lib (k b) w2) as [[r3 w3] log3]. simpl in *.
        rewrite !Forall_app; auto.
    + specialize (IHk b w1).
      destruct (run lib (k b) w1) as [[r3 w3] log3]. simpl in *.
      apply Forall_app; auto.
Qed.

(** Whatever [np.random.random(size=(50, 2))] returned has that shape. *)
Lemma generated_points_shape {A} (p : Prog A) w raw :
  Ev (np_random_random (50, 2)%nat) (inr raw) ∈ (run lib p w).2 ->
  two_dimensional (nd_sub_scalar raw 0.5) /\
  length (rows (nd_sub_scalar raw 0.5)) = 50%nat.
Proof.
  intros Hin. pose proof (log_steps p w) as HF.
  rewrite Forall_forall in HF. destruct (HF _ Hin) as (w0 & w1 & Hstep).
  cbn [ev_call ev_out step fst snd] in Hstep.
  destruct (draw_rows_shape lib 50 2 (ext w0)) as [Hlen Hall].
  destruct (draw_rows lib 50 2 (ext w0)) as [rs e]. simpl in Hlen, Hall.
  injection Hstep as <- _. unfold two_dimensional. simpl.
  rewrite length_map. split; [|exact Hlen]. split; [reflexivity|].
  apply List.Forall_map. eapply Forall_impl; [exact Hall|].
  intros row Hrow. rewrite length_map. exact Hrow.
Qed.

Ltac solve_handles :=
  split;
  [ simpl; first [exact I|reflexivity]
  | let Heq := fresh "Heq" in
    intros (? & ? & ? & Heq);
    first
      [ discriminate Heq
      | match goal with
        | H : unpack_xy (rows (T _)) = _ |- _ =>
            apply unpack_xy_T in H as [H _]; exact H
        end ] ].

Ltac walk_handles :=
  repeat match goal with
  | |- calls_all _ (lift (unpack_xy _) ≫= _) =>
      apply calls_all_bind_lift; intros [? ?] ?
  | |- calls_all _ (_ ≫= _) => apply calls_all_bind; [|intros ?]
  | |- calls_all _ (call _) => apply calls_all_call; solve_handles
  | |- calls_all _ (lift _) => apply calls_all_lift
  | |- calls_all _ (for_each _ _) => apply calls_all_for_each; intros ?
  | |- calls_all _ (for_collect _ _) => apply calls_all_for_collect; intros ?
  | |- calls_all _ (Ret _) => exact I
  | |- calls_all _ (match ?x with _ => _ end) => destruct x
  end.

Lemma cells_after_load_handle_data (data : ndarray) :
  calls_all (handles_data data) (cells_after_load data).
Proof.
  unfold cells_after_load, cell28, gen_test_points, first_two_rows_of_T.
  unfold_cell_bodies. unfold first_two_rows_of_T. walk_handles.
Qed.

(** C6, amended: every generated test point has two coordinates, and
    the notebook treats the loaded data as two-dimensional but requires
    it only in cell 17, which passes every row of [data.T] to scatter.
    In a run of the notebook that completes, the loaded data and the
    test points are arrays of points with exactly two coordinates each
    (the test points are 50), [data] is what every fit clusters, the
    test points are what is predicted, and every scatter call is given
    exactly the two rows of the transpose of one of the two.  In a run
    of the cells after the load that ends anywhere, every fit clusters
    the loaded array as it is, the generated test points have two
    coordinates, and the array has two columns if the scatter call of
    cell 17 was reached.  (What the separately run demo script plots is
    not the notebook's code.) *)
Theorem C6_datasets_are_two_dimensional :
  (forall w w' log,
      run lib notebook w = (inr tt, w', log) ->
      exists data raw,
        In (Ev (np_load data_file) (inr data)) log /\
        In (Ev (np_random_random (50, 2)%nat) (inr raw)) log /\
        two_dimensional data /\
        two_dimensional (nd_sub_scalar raw 0.5) /\
        length (rows (nd_sub_scalar raw 0.5)) = 50%nat /\
        Forall (fun ev =>
                  uses_datasets data (nd_sub_scalar raw 0.5) (ev_call ev))
          log) /\
  (forall data w r w' log,
      run lib (cells_after_load data) w = (r, w', log) ->
      Forall (fun fitted_on => fitted_on.2 = data)
        (omap fitted log ++ omap fit_called log) /\
      (forall raw,
          Ev (np_random_random (50, 2)%nat) (inr raw) ∈ log ->
          two_dimensional (nd_sub_scalar raw 0.5) /\
          length (rows (nd_sub_scalar raw 0.5)) = 50%nat) /\
      (forall ev, ev ∈ log -> cell17_scatter (ev_call ev) ->
                  ncols data = 2%nat)).
Proof.
  split.
  - intros w w' log. unfold notebook. intros H. invert_run.
    match goal with
    | H : run _ (cells_after_load _) _ = _ |- _ =>
        unfold cells_after_load in H
    end.
    invert_run.
    match goal with
    | H : run _ cell7 _ = (inr ?data, _, _) |- _ =>
        apply cell7_loads in H as [-> Hrect]; exists data
    end.
    match goal with
    | H : run _ (cell17 _ _) _ = _ |- _ =>
        pose proof (cell17_needs_two_columns _ _ _ _ _ _ H) as Hcols
    end.
    match goal with
    | H : run _ (cell28 _ _) _ = _ |- _ =>
        apply cell28_parts in H
          as (raw & rest & -> & Hn & Hlen & Hall & -> & Hrest); exists raw
    end.
    split; [rewrite !in_app_iff; simpl; auto 20|].
    split; [rewrite !in_app_iff; simpl; auto 20|].
    split.
    { split; [exact Hcols|]. rewrite <- Hcols. apply rectangular_rows, Hrect. }
    split; [split; [exact Hn|exact Hall]|]. split; [exact Hlen|].
    match goal with
    | _ : rectangular ?data = true |- _ =>
        logs_read data (nd_sub_scalar raw 0.5)
    end.
    eapply Forall_impl; [|intros ev; apply reads_uses; [exact Hcols|exact Hn]].
    rewrite ?Forall_app, ?Forall_cons.
    repeat split; first [assumption | exact I | apply Forall_nil_2].
  - intros data w r w' log Hrun.
    pose proof (calls_all_log lib _ _ (cells_after_load_handle_data data) w)
      as HF.
    pose proof (generated_points_shape (cells_after_load data) w) as Hgen.
    rewrite Hrun in HF, Hgen. simpl in HF, Hgen.
    split; [|split; [exact Hgen|]].
    + rewrite Forall_app, !Forall_forall. rewrite Forall_forall in HF.
      split; intros [o X] Hin; apply list_elem_of_omap in Hin
        as ([c out] & Hev & Hread);
        destruct (HF _ Hev) as [Hfit _];
        destruct c; simpl in Hread; try discriminate;
        injection Hread as <- <-; exact Hfit.
    + intros ev Hev Hscatter. rewrite Forall_forall in HF.
      exact (proj2 (HF ev Hev) Hscatter).
Qed.
End Dimensions.

(** C6, as stated, fails: what [np.load] returns is what the file
    holds, and on a file that holds points with three coordinates every
    algorithm of the comparison is fitted on them. *)
Lemma C6_wider_data_is_clustered :
  ~ (forall E (lib : Lib E) w r w' log,
        run lib notebook w = (r, w', log) ->
        Forall (fun fitted_on => two_dimensional fitted_on.2)
          (omap fitted log)).
Proof.
  intros H.
  pose proof (H nat wide_lib demo_world _ _ _
                (run_outcome wide_lib notebook demo_world)) as HF.
  assert (Hfits : omap fitted (run wide_lib notebook demo_world).2
                  = map (fun o => (o, data_3d)) [6; 13; 20; 27; 34; 41; 48; 54]%nat)
    by (vm_compute; reflexivity).
  rewrite Hfits in HF. inversion HF as [|x l [Hcols _] _]. discriminate Hcols.
Qed.

Lemma C6_witness :
  exists w' log,
    run demo_lib notebook demo_world = (inr tt, w', log) /\
    exists data raw,
      In (Ev (np_load data_file) (inr data)) log /\
      In (Ev (np_random_random (50, 2)%nat) (inr raw)) log /\
      two_dimensional data /\
      two_dimensional (nd_sub_scalar raw 0.5) /\
      length (rows (nd_sub_scalar raw 0.5)) = 50%nat /\
      Forall (fun ev =>
                uses_datasets data (nd_sub_scalar raw 0.5) (ev_call ev)) log.
Proof.
  assert (Ho : (run demo_lib notebook demo_world).1.1 = inr tt)
    by (vm_compute; reflexivity).
  pose proof (run_outcome demo_lib notebook demo_world) as Hrun.
  rewrite Ho in Hrun. eexists _, _. split; [exact Hrun|].
  destruct (C6_datasets_are_two_dimensional demo_lib) as [Hdone _].
  exact (Hdone _ _ _ Hrun).
Defined.

(** ** Where the labels come from *)

Section Labels.
Context {E : Type} (lib : Lib E).

Lemma run_first_two_rows data w x y w' log :
  run lib (first_two_rows_of_T data) w = (inr (x, y), w', log) ->
  x = column data 0 /\ y = column data 1 /\ w' = w /\ log = [].
Proof.
  unfold first_two_rows_of_T. intros H. invert_run.
  match goal with H : nd_getitem _ 0 = _ |- _ => apply T_row0 in H as -> end.
  match goal with H : nd_getitem _ 1 = _ |- _ => apply T_row1 in H as -> end.
  auto.
Qed.

Lemma unpack_xy_columns (a : ndarray) (x y : list Q) :
  unpack_xy (rows (T a)) = inr (x, y) ->
  x = column a 0 /\ y = column a 1.
Proof.
  intros H. pose proof (unpack_xy_T _ _ _ H) as [Hn _].
  unfold T in H. simpl in H. rewrite Hn in H. simpl in H.
  injection H as <- <-. auto.
Qed.

Ltac use_rows :=
  repeat match goal with
  | H : run _ (first_two_rows_of_T _) _ = (inr (_, _), _, _) |- _ =>
      apply run_first_two_rows in H as (-> & -> & -> & ->)
  | H : unpack_xy (rows (T _)) = inr (_, _) |- _ =>
      apply unpack_xy_columns in H as [-> ->]
  end.

Lemma cell16_17_trace hdbs data w color_palette cluster_colors w' log :
  run lib (labels ← cell16 hdbs data; cell17 data labels) w
  = (inr (color_palette, cluster_colors), w', log) ->
  exists labels fig,
    log = cell16_17_log hdbs data labels color_palette cluster_colors fig /\
    label_colors color_palette (0.5, 0.5, 0.5) labels = inr cluster_colors.
Proof.
  unfold cell16, cell17. intros H. invert_run. use_rows.
  eexists _, _. split; [reflexivity|assumption].
Qed.

Lemma min_samples_body_trace fig data entry w w' log :
  run lib (min_samples_body fig data entry) w = (inr tt, w', log) ->
  exists ps,
    log = min_samples_log fig data entry ps /\
    label_colors (ms_palette ps) (0.5, 0.5, 0.5) (ms_labels ps)
    = inr (ms_colors ps).
Proof.
  destruct entry as [i minsamp]. unfold min_samples_body, hide_axes.
  intros H. invert_run. use_rows.
  match goal with
  | Hc : label_colors ?pal _ ?labels = inr ?cols,
    _ : step _ (estimator_new _ _ _) _ = (inr ?est, ?wa),
    _ : step _ (fit _ _) ?wa = (inr ?cl, ?wb),
    _ : step _ (get_labels_ _) ?wb = (inr ?counted, _),
    _ : step _ (add_subplot _ _ _ _) _ = (inr ?ax, _),
    _ : step _ (get_xaxis _) _ = (inr ?xa, _),
    _ : step _ (get_yaxis _) _ = (inr ?ya, _) |- _ =>
      exists (mk_pass est cl counted pal labels cols ax xa ya)
  end.
  split; [reflexivity|assumption].
Qed.

Lemma cell28_trace hdbs data w test_points color_palette cluster_colors w' log :
  run lib (cell28 hdbs data) w
  = (inr (test_points, color_palette, cluster_colors), w', log) ->
  exists raw labels probabilities fig,
    test_points = nd_sub_scalar raw 0.5 /\
    log = cell28_log hdbs data raw test_points color_palette labels
            probabilities cluster_colors fig.
Proof.
  unfold cell28. intros H. invert_run. use_rows.
  match goal with
  | H : run _ (desaturated_colors _ _) _ = _ |- _ =>
      apply desaturated_colors_trace in H as (labels & probs & -> & _ & _)
  end.
  match goal with
  | H : run _ gen_test_points _ = _ |- _ =>
      rewrite gen_test_points_run in H; injection H as <- <- <-
  end.
  eexists _, _, _, _. split; reflexivity.
Qed.

Lemma cell29_30_trace hdbs data test_points color_palette cluster_colors
    w w' log :
  run lib ('(test_labels, _) ← cell29 hdbs test_points;
           cell30 data test_points color_palette cluster_colors test_labels) w
  = (inr tt, w', log) ->
  exists test_labels strengths colors fig,
    log = cell29_30_log hdbs data test_points cluster_colors test_labels
            strengths colors fig /\
    test_colors color_palette test_labels = inr colors.
Proof.
  unfold cell29, cell30. intros H. invert_run. use_rows.
  eexists _, _, _, _. split; [reflexivity|assumption].
Qed.
End Labels.

Example demo_notebook_completes :
  (run demo_lib notebook demo_world).1.1 = inr tt.
Proof. vm_compute. reflexivity. Qed.

(** C4: every label array of the notebook is what a library call
    returned ([fit_predict], the [labels_] attribute of a fitted model,
    [approximate_predict]), and it reaches the colouring unchanged: in a
    completed run the colour list passed to each scatter call is the
    comprehension over exactly the labels that the call before it
    returned.  The notebook computes colours from labels; it computes no
    labels. *)
Theorem C4_labels_are_library_outputs {E} (lib : Lib E) :
  (forall data w w' log,
      run lib (cell11 data) w = (inr tt, w', log) ->
      exists fig its,
        log = cell11_log fig data its /\ Forall iteration_ok its) /\
  (forall hdbs data w labels w' log,
      run lib (cell16 hdbs data) w = (inr labels, w', log) ->
      log = [Ev (fit_predict hdbs data) (inr labels)]) /\
  (forall hdbs data w color_palette cluster_colors w' log,
      run lib (labels ← cell16 hdbs data; cell17 data labels) w
      = (inr (color_palette, cluster_colors), w', log) ->
      exists labels fig,
        log = cell16_17_log hdbs data labels color_palette cluster_colors fig /\
        label_colors color_palette (0.5, 0.5, 0.5) labels = inr cluster_colors) /\
  (forall fig data entry w w' log,
      run lib (min_samples_body fig data entry) w = (inr tt, w', log) ->
      exists ps,
        log = min_samples_log fig data entry ps /\
        label_colors (ms_palette ps) (0.5, 0.5, 0.5) (ms_labels ps)
        = inr (ms_colors ps)) /\
  (forall hdbs data w test_points color_palette cluster_colors w' log,
      run lib (cell28 hdbs data) w
      = (inr (test_points, color_palette, cluster_colors), w', log) ->
      exists raw labels probabilities fig,
        test_points = nd_sub_scalar raw 0.5 /\
        log = cell28_log hdbs data raw test_points color_palette labels
                probabilities cluster_colors fig) /\
  (forall hdbs test_points w test_labels strengths w' log,
      run lib (cell29 hdbs test_points) w
      = (inr (test_labels, strengths), w', log) ->
      log = [Ev (approximate_predict hdbs test_points)
               (inr (test_labels, strengths))]) /\
  (forall hdbs data test_points color_palette cluster_colors w w' log,
      run lib ('(test_labels, _) ← cell29 hdbs test_points;
               cell30 data test_points color_palette cluster_colors
                 test_labels) w
      = (inr tt, w', log) ->
      exists test_labels strengths colors fig,
        log = cell29_30_log hdbs data test_points cluster_colors test_labels
                strengths colors fig /\
        test_colors color_palette test_labels = inr colors).
Proof.
  repeat split.
  - intros data w w' log H.
    apply cell11_trace in H as (fig & its & _ & Hok & ->). eauto.
  - intros hdbs data w labels w' log H. unfold cell16 in H.
    invert_run. reflexivity.
  - apply cell16_17_trace.
  - apply min_samples_body_trace.
  - apply cell28_trace.
  - intros hdbs test_points w test_labels strengths w' log H.
    unfold cell29 in H. invert_run. reflexivity.
  - apply cell29_30_trace.
Qed.

Lemma C4_witness :
  exists w' log,
    run demo_lib (cell11 demo_data) loaded_world = (inr tt, w', log) /\
    exists fig its,
      log = cell11_log fig demo_data its /\ Forall iteration_ok its.
Proof.
  assert (Ho : (run demo_lib (cell11 demo_data) loaded_world).1.1 = inr tt)
    by (vm_compute; reflexivity).
  pose proof (run_outcome demo_lib (cell11 demo_data) loaded_world) as Hrun.
  rewrite Ho in Hrun. eexists _, _. split; [exact Hrun|].
  destruct (C4_labels_are_library_outputs demo_lib) as (Hloop & _).
  exact (Hloop _ _ _ _ Hrun).
Defined.

(** ** The string formatting and the array helpers on examples *)

Example format_2f_ex1 : format_2f (3 # 100) = "0.03"%string.
Proof. vm_compute. reflexivity. Qed.
Example format_2f_ex2 : format_2f (1 # 8) = "0.12"%string.
Proof. vm_compute. reflexivity. Qed.
Example format_2f_ex3 : format_2f (3 # 8) = "0.38"%string.
Proof. vm_compute. reflexivity. Qed.
Example format_2f_ex4 : format_2f (-1 # 1000) = "-0.00"%string.
Proof. vm_compute. reflexivity. Qed.
Example format_2f_ex5 : format_2f (123456 # 1000) = "123.46"%string.
Proof. vm_compute. reflexivity. Qed.
Example format_2f_ex6 : format_runtime "KMeans" (-3 # 2) = "KMeans: -1.50 s"%string.
Proof. vm_compute. reflexivity. Qed.
Example uniq_ex : np_unique [3; -1; 0; 3; -1; 2]%Z = [-1; 0; 2; 3]%Z.
Proof. reflexivity. Qed.
Example getitem_ex :
  py_getitem [10; 20; 30]%Z (-1) = inr 30%Z /\
  py_getitem [10; 20; 30]%Z 3 = inl IndexError /\
  py_getitem [10; 20; 30]%Z (-4) = inl IndexError.
Proof. repeat split; reflexivity. Qed.


(** * Further properties of the cells *)

(** ** The palettes of cells 17 and 25 *)






Lemma label_colors_length (palette : list color) (noise : color)
    (labels : list Z) (colors : list color) :
  label_colors palette noise labels = inr colors ->
  length colors = length labels.
Proof.
  unfold label_colors. revert colors.
  induction labels as [|x t IH]; intros colors; simpl; [intros [= <-]; reflexivity|].
  destruct (if (0 <=? x)%Z then py_getitem palette x else inr noise)
    as [e|c]; [discriminate|].
  destruct (comprehension _ t) as [e|cs]; [discriminate|].
  intros [= <-]. simpl. f_equal. apply IH. reflexivity.
Qed.



Example labels_with_a_gap :
  label_colors (cycle_take deep.1 deep.2 (length (np_unique [0; 2; 2]%Z)))
    (0.5, 0.5, 0.5) [0; 2; 2]%Z = inl IndexError.
Proof. reflexivity. Qed.





(** ** The colouring of the training data in cell 28 *)

Lemma py_getitem_wraps {A} (l : list A) (i : Z) :
  (- Z.of_nat (length l) <= i < Z.of_nat (length l))%Z ->
  exists a,
    py_getitem l i = inr a /\
    l !! Z.to_nat (i mod Z.of_nat (length l)) = Some a.
Proof.
  intros Hi. unfold py_getitem.
  set (n := Z.of_nat (length l)) in *.
  assert (Hmod : (i mod n = if i <? 0 then i + n else i)%Z).
  { destruct (i <? 0)%Z eqn:Hneg.
    - apply Z.ltb_lt in Hneg. symmetry.
      apply (Z.mod_unique_pos i n (-1) (i + n)); lia.
    - apply Z.ltb_ge in Hneg. apply Z.mod_small. lia. }
  rewrite Hmod. set (j := (if i <? 0 then i + n else i)%Z).
  assert (Hj : (0 <= j < n)%Z).
  { subst j. destruct (i <? 0)%Z eqn:Hneg;
      [apply Z.ltb_lt in Hneg|apply Z.ltb_ge in Hneg]; lia. }
  destruct (0 <=? j)%Z eqn:H0; [|lia].
  destruct (j <? n)%Z eqn:Hn; [|lia]. simpl.
  destruct (l !! Z.to_nat j) as [a|] eqn:Hl; [eauto|].
  apply lookup_ge_None in Hl. lia.
Qed.

(** X3: the comprehension of cell 28 indexes the palette with every
    label, unguarded.  For a label in [-len, len) it passes the palette's
    colour at [label mod len] to sns.desaturate (so the noise label -1
    takes the last colour) and does nothing else; for any other label it
    raises IndexError before any call. *)
Theorem X3_cell28_labels_wrap_around
    {E} (lib : Lib E) (palette : list color) (col : Z) (sat : Q)
    (w : World E) :
  ((- Z.of_nat (length palette) <= col < Z.of_nat (length palette))%Z ->
   exists c,
     palette !! Z.to_nat (col mod Z.of_nat (length palette)) = Some c /\
     run lib (desaturate_one palette (col, sat)) w
     = run lib (call (sns_desaturate c sat)) w) /\
  (~ (- Z.of_nat (length palette) <= col < Z.of_nat (length palette))%Z ->
   run lib (desaturate_one palette (col, sat)) w = (inl IndexError, w, [])).
Proof.
  unfold desaturate_one. split.
  - intros Hi. destruct (py_getitem_wraps palette col Hi) as (c & Hc & Hl).
    exists c. split; [exact Hl|]. rewrite run_bind, Hc. simpl.
    destruct (lib_call lib (sns_desaturate c sat) (ext w)) as [[x|v] e];
      reflexivity.
  - intros Hi. rewrite run_bind.
    destruct (py_getitem palette col) as [x|c] eqn:Hc.
    + apply py_getitem_inl in Hc as [-> _]. reflexivity.
    + apply py_getitem_inr in Hc. contradiction.
Qed.

Lemma X3_witness :
  run demo_lib (desaturate_one (cycle_take deep.1 deep.2 12) ((-1)%Z, 1))
    demo_world
  = run demo_lib (call (sns_desaturate (0.392, 0.710, 0.804) 1)) demo_world /\
  run demo_lib (desaturate_one (cycle_take deep.1 deep.2 12) ((-13)%Z, 1))
    demo_world
  = (inl IndexError, demo_world, []).
Proof.
  destruct (X3_cell28_labels_wrap_around demo_lib
              (cycle_take deep.1 deep.2 12) (-1)%Z 1 demo_world) as [H1 _].
  destruct (X3_cell28_labels_wrap_around demo_lib
              (cycle_take deep.1 deep.2 12) (-13)%Z 1 demo_world) as [_ H2].
  split.
  - destruct H1 as (c & Hc & Hrun); [simpl; lia|].
    injection Hc as <-. exact Hrun.
  - apply H2. simpl. lia.
Defined.

(** X4: cell 28 pairs labels with probabilities by [zip]: a completed
    colouring read the two attributes once each, made one sns.desaturate
    call per pair, and returned as many colours as the shorter of the two
    arrays has entries. *)
Theorem X4_cell28_one_colour_per_pair
    {E} (lib : Lib E) (hdbs : obj) (palette : list color) (w : World E)
    (colors : list color) (w' : World E) (log : list Event) :
  run lib (desaturated_colors hdbs palette) w = (inr colors, w', log) ->
  exists labels probabilities,
    log = desaturated_log hdbs palette labels probabilities colors /\
    length colors = Nat.min (length labels) (length probabilities) /\
    length log = (2 + length colors)%nat.
Proof.
  intros H.
  apply desaturated_colors_trace in H as (labels & probs & -> & Hlen & _).
  exists labels, probs. split; [reflexivity|].
  rewrite length_zip in Hlen. split; [exact Hlen|].
  unfold desaturated_log. rewrite length_app, length_zip_with, length_zip.
  simpl. lia.
Qed.

Lemma X4_witness :
  exists colors w' log,
    run demo_lib (desaturated_colors 0%nat (cycle_take deep.1 deep.2 12))
      demo_world = (inr colors, w', log) /\
    exists labels probabilities,
      log = desaturated_log 0%nat (cycle_take deep.1 deep.2 12) labels
              probabilities colors /\
      length colors = Nat.min (length labels) (length probabilities) /\
      length log = (2 + length colors)%nat.
Proof.
  pose proof (run_outcome demo_lib
                (desaturated_colors 0%nat (cycle_take deep.1 deep.2 12))
                demo_world) as Hrun.
  assert (Ho : exists colors,
             (run demo_lib
                (desaturated_colors 0%nat (cycle_take deep.1 deep.2 12))
                demo_world).1.1 = inr colors)
    by (vm_compute; eexists; reflexivity).
  destruct Ho as [colors Ho]. rewrite Ho in Hrun.
  eexists colors, _, _. split; [exact Hrun|].
  exact (X4_cell28_one_colour_per_pair demo_lib _ _ _ _ _ _ Hrun).
Defined.

(** ** The loop over [min_samples] (cell 25) and the subplot grids *)

Section MinSamples.
Context {E : Type} (lib : Lib E).

Lemma min_samples_loop_trace fig data entries w w' log :
  run lib (for_each entries (min_samples_body fig data)) w = (inr tt, w', log) ->
  exists passes,
    length passes = length entries /\
    log = concat (zip_with (min_samples_log fig data) entries passes).
Proof.
  intros H. apply run_for_each_inr in H as (logs & -> & HF).
  induction HF as [|entry lg l ls (w1 & w2 & Hb) _ IH].
  - exists []. split; reflexivity.
  - destruct IH as (passes & Hlen & Heq).
    apply min_samples_body_trace in Hb as (ps & -> & _).
    exists (ps :: passes). simpl. rewrite Hlen, Heq. split; reflexivity.
Qed.

Lemma cell25_trace data w w' log :
  run lib (cell25 data) w = (inr tt, w', log) ->
  exists fig passes, length passes = 4%nat /\ log = cell25_log fig data passes.
Proof.
  unfold cell25. intros H. invert_run.
  match goal with
  | H : run _ (for_each _ _) _ = _ |- _ =>
      apply min_samples_loop_trace in H as (passes & Hlen & ->)
  end.
  eexists _, passes. split; [exact Hlen|reflexivity].
Qed.
End MinSamples.

(** X5: a completed run of cell 25 is four passes between the creation of
    the figure and its layout: for 1, 10, 20 and 50 in this order an
    HDBSCAN estimator with [min_cluster_size=50] and that [min_samples] is
    constructed and fitted once, on [data], and the four panels are
    captioned with the four values. *)
Theorem X5_cell25_four_fits_in_order
    {E} (lib : Lib E) (data : ndarray) (w w' : World E) (log : list Event) :
  run lib (cell25 data) w = (inr tt, w', log) ->
  exists fig passes,
    length passes = 4%nat /\
    log = cell25_log fig data passes /\
    omap constructed log
    = zip_with (fun v ps =>
                  (HDBSCAN, [],
                   [("min_cluster_size", PInt 50); ("min_samples", PInt v)],
                   ms_est ps)) [1; 10; 20; 50]%Z passes /\
    omap fit_called log = map (fun ps => (ms_est ps, data)) passes /\
    omap rendered_text log
    = [ "min_samples: 1"; "min_samples: 10"; "min_samples: 20";
        "min_samples: 50" ]%string.
Proof.
  intros H. apply cell25_trace in H as (fig & passes & Hlen & ->).
  exists fig, passes. split; [exact Hlen|]. split; [reflexivity|].
  destruct passes as [|p1 [|p2 [|p3 [|p4 [|p5 rest]]]]]; try discriminate.
  repeat split; reflexivity.
Qed.

Lemma X5_witness :
  exists w' log,
    run demo_lib (cell25 demo_data) loaded_world = (inr tt, w', log) /\
    omap rendered_text log
    = [ "min_samples: 1"; "min_samples: 10"; "min_samples: 20";
        "min_samples: 50" ]%string.
Proof.
  assert (Ho : (run demo_lib (cell25 demo_data) loaded_world).1.1 = inr tt)
    by (vm_compute; reflexivity).
  pose proof (run_outcome demo_lib (cell25 demo_data) loaded_world) as Hrun.
  rewrite Ho in Hrun. eexists _, _. split; [exact Hrun|].
  destruct (X5_cell25_four_fits_in_order demo_lib _ _ _ _ Hrun)
    as (fig & passes & _ & _ & _ & _ & Htext).
  exact Htext.
Defined.

Lemma calls_all_for_each_in {A} (P : Call -> Prop) (l : list A)
    (body : A -> Prog unit) :
  (forall x, x ∈ l -> calls_all P (body x)) -> calls_all P (for_each l body).
Proof.
  induction l as [|x t IH]; intros Hb; simpl; [exact I|].
  apply calls_all_bind; [apply Hb; left|].
  intros _. apply IH. intros y Hy. apply Hb. right. exact Hy.
Qed.

(** [enumerate(l, start)] numbers from [start] on, one by one. *)
Lemma elem_of_enumerate {A} (l : list A) (start i : Z) (x : A) :
  (i, x) ∈ enumerate l start ->
  (start <= i < start + Z.of_nat (length l))%Z.
Proof.
  revert start. induction l as [|y t IH]; intros start; simpl.
  - intros H. apply elem_of_nil in H. contradiction.
  - intros H. apply elem_of_cons in H as [[= -> ->]|H]; [lia|].
    apply IH in H. lia.
Qed.

Lemma cell11_subplots_in_grid (data : ndarray) :
  calls_all subplot_in_grid (cell11 data).
Proof.
  unfold cell11. apply calls_all_bind; [apply calls_all_call; exact I|].
  intros fig. apply calls_all_bind; [|intros _; apply calls_all_call; exact I].
  apply calls_all_for_each_in. intros [i [[algo args] kw]] Hin.
  apply elem_of_enumerate in Hin. simpl in Hin.
  unfold comparison_body, first_two_rows_of_T, hide_axes.
  walk_calls_all ltac:(simpl; first [exact I | lia]).
Qed.

Lemma cell25_subplots_in_grid (data : ndarray) :
  calls_all subplot_in_grid (cell25 data).
Proof.
  unfold cell25. apply calls_all_bind; [apply calls_all_call; exact I|].
  intros fig. apply calls_all_bind; [|intros _; apply calls_all_call; exact I].
  apply calls_all_for_each_in. intros [i minsamp] Hin.
  apply elem_of_enumerate in Hin. simpl in Hin.
  unfold min_samples_body, first_two_rows_of_T, hide_axes.
  walk_calls_all ltac:(simpl; first [exact I | lia]).
Qed.

(** X6: the two loops place their panels inside their grids.  However a
    run of cell 11 or of cell 25 ends, every position it asked of
    [add_subplot] lies in the grid (4 by 2 for the seven algorithms, 2 by
    2 for the four values of [min_samples]); and a completed run used the
    positions 1 to 7, respectively 1 to 4, once each and in order. *)
Theorem X6_subplots_stay_in_the_grid {E} (lib : Lib E) (data : ndarray) :
  (forall w, Forall (fun ev => subplot_in_grid (ev_call ev))
               (run lib (cell11 data) w).2) /\
  (forall w, Forall (fun ev => subplot_in_grid (ev_call ev))
               (run lib (cell25 data) w).2) /\
  (forall w w' log,
      run lib (cell11 data) w = (inr tt, w', log) ->
      omap subplot_index log = seqZ 1 7) /\
  (forall w w' log,
      run lib (cell25 data) w = (inr tt, w', log) ->
      omap subplot_index log = seqZ 1 4).
Proof.
  split; [|split; [|split]].
  - intros w. apply calls_all_log, cell11_subplots_in_grid.
  - intros w. apply calls_all_log, cell25_subplots_in_grid.
  - intros w w' log H.
    apply cell11_trace in H as (fig & its & Hlen & _ & ->).
    destruct its as [|i1 [|i2 [|i3 [|i4 [|i5 [|i6 [|i7 [|i8 rest]]]]]]]];
      try discriminate.
    reflexivity.
  - intros w w' log H.
    apply cell25_trace in H as (fig & passes & Hlen & ->).
    destruct passes as [|p1 [|p2 [|p3 [|p4 [|p5 rest]]]]]; try discriminate.
    reflexivity.
Qed.

Lemma X6_witness :
  omap subplot_index (run demo_lib (cell11 demo_data) loaded_world).2
  = seqZ 1 7 /\
  Forall (fun ev => subplot_in_grid (ev_call ev))
    (run failing_lib (cell11 demo_data) loaded_world).2.
Proof.
  destruct (X6_subplots_stay_in_the_grid demo_lib demo_data)
    as (_ & _ & Hdone & _).
  destruct (X6_subplots_stay_in_the_grid failing_lib demo_data)
    as (Hany & _).
  split; [|apply Hany].
  assert (Ho : (run demo_lib (cell11 demo_data) loaded_world).1.1 = inr tt)
    by (vm_compute; reflexivity).
  pose proof (run_outcome demo_lib (cell11 demo_data) loaded_world) as Hrun.
  rewrite Ho in Hrun. exact (Hdone _ _ _ Hrun).
Defined.

(** ** Where an exception comes from *)

Lemma raises_only_bind {A B} (S : exn -> Prop) (p : Prog A) (f : A -> Prog B) :
  raises_only S p -> (forall a, raises_only S (f a)) -> raises_only S (p ≫= f).
Proof.
  unfold mbind, Prog_bind. intros Hp Hf.
  induction p as [? a|? x|? c k IH|? C body _ handler _ k IH]; simpl in *;
    auto.
  destruct Hp as (Hb & Hh & Hk). repeat split; auto.
Qed.

Lemma raises_only_call (S : exn -> Prop) (c : Call) : raises_only S (call c).
Proof. intros r. exact I. Qed.

Lemma raises_only_lift {A} (S : exn -> Prop) (r : result A) :
  (forall x, r = inl x -> S x) -> raises_only S (lift r).
Proof. destruct r as [x|a]; simpl; auto. Qed.

Lemma raises_only_for_each {A} (S : exn -> Prop) (l : list A)
    (body : A -> Prog unit) :
  (forall x, raises_only S (body x)) -> raises_only S (for_each l body).
Proof.
  intros Hb. induction l as [|x t IH]; simpl; [exact I|].
  apply raises_only_bind; auto.
Qed.

Lemma raises_only_for_collect {A B} (S : exn -> Prop) (l : list A)
    (f : A -> Prog B) :
  (forall x, raises_only S (f x)) -> raises_only S (for_collect l f).
Proof.
  intros Hf. induction l as [|x t IH]; simpl; [exact I|].
  apply raises_only_bind; [apply Hf|]. intros y.
  apply raises_only_bind; [exact IH|]. intros ys. exact I.
Qed.

Lemma nd_getitem_inl (a : ndarray) (i : Z) (x : exn) :
  nd_getitem a i = inl x -> x = IndexError.
Proof. unfold nd_getitem. intros H. apply py_getitem_inl in H as [-> _]. reflexivity. Qed.

Lemma np_max_inl (l : list Z) (x : exn) : np_max l = inl x -> x = ValueError.
Proof. destruct l; simpl; congruence. Qed.

Lemma unpack_xy_inl (positional : list (list Q)) (x : exn) :
  unpack_xy positional = inl x -> x = TypeError.
Proof.
  destruct positional as [|a [|b [|c t]]]; simpl; congruence.
Qed.

(** The expressions of the notebook that can raise, and what they raise. *)
Ltac own_lift :=
  let x := fresh "x" in
  let Hx := fresh "Hx" in
  intros x Hx; unfold own_exception;
  first [ apply nd_getitem_inl in Hx
        | apply np_max_inl in Hx
        | apply unpack_xy_inl in Hx
        | apply label_colors_inl in Hx
        | apply py_getitem_inl in Hx as [Hx _] ];
  auto.

Ltac walk_raises_only :=
  repeat match goal with
  | |- raises_only _ (_ ≫= _) => apply raises_only_bind; [|intros ?]
  | |- raises_only _ (call _) => apply raises_only_call
  | |- raises_only _ (lift _) => apply raises_only_lift; own_lift
  | |- raises_only _ (for_each _ _) => apply raises_only_for_each; intros ?
  | |- raises_only _ (for_collect _ _) =>
      apply raises_only_for_collect; intros ?
  | |- raises_only _ (Ret _) => exact I
  | |- raises_only _ (match ?x with _ => _ end) => destruct x
  end.

Lemma computing_cell_raises_only {A} (p : Prog A) :
  computing_cell p -> raises_only own_exception p.
Proof. intros []; unfold_cells; unfold test_colors; walk_raises_only. Qed.

Lemma notebook_raises_only : raises_only own_exception notebook.
Proof. unfold_cells; unfold test_colors; walk_raises_only. Qed.

Section Provenance.
Context {E : Type} (lib : Lib E).

(** Without a handler, the exception a run ends in was raised by its last
    call or by an expression of the program's own, every call before
    having returned. *)
Lemma exception_origin (S : exn -> Prop) {A} (p : Prog A) :
  handler_free p -> raises_only S p ->
  forall w x w' log,
    run lib p w = (inl x, w', log) ->
    (exists pre ev, log = pre ++ [ev] /\ raised ev x /\ Forall returned pre) \/
    (S x /\ Forall returned log).
Proof.
  induction p as [? a|? y|? c k IH|? C body _ handler _ k _]; simpl;
    intros Hh Hr w x w' log Hrun.
  - discriminate.
  - injection Hrun as <- <- <-. right. split; [exact Hr|constructor].
  - destruct (step lib c w) as [[y|v] w1] eqn:Hs.
    + injection Hrun as <- <- <-. left. exists [], (Ev c (inl y)).
      repeat split. constructor.
    + destruct (run lib (k v) w1) as [[r2 w2] log2] eqn:Hk.
      injection Hrun as -> <- <-.
      destruct (IH v (Hh v) (Hr v) _ _ _ _ Hk)
        as [(pre & ev & -> & Hev & Hpre)|[HS Hall]].
      * left. exists (Ev c (inr v) :: pre), ev.
        repeat split; [exact Hev|]. constructor; [exact I|exact Hpre].
      * right. split; [exact HS|]. constructor; [exact I|exact Hall].
  - contradiction.
Qed.

(** Without a handler, a run that completes made no call that raised. *)
Lemma completed_all_returned {A} (p : Prog A) :
  handler_free p ->
  forall w a w' log, run lib p w = (inr a, w', log) -> Forall returned log.
Proof.
  induction p as [? a0|? y|? c k IH|? C body _ handler _ k _]; simpl;
    intros Hh w a w' log Hrun.
  - injection Hrun as <- <- <-. constructor.
  - discriminate.
  - destruct (step lib c w) as [[y|v] w1] eqn:Hs; [discriminate|].
    destruct (run lib (k v) w1) as [[r2 w2] log2] eqn:Hk.
    injection Hrun as -> <- <-. constructor; [exact I|].
    eapply IH; [apply Hh|exact Hk].
  - contradiction.
Qed.
End Provenance.

(** X7: where the exception of a failed run comes from.  When a run of a
    cell, or of the whole notebook, ends in an exception, then either the
    last call made raised it, or no call raised and the exception is an
    IndexError, a ValueError or a TypeError of the notebook's own
    indexing, [.max()] or argument unpacking; in both cases every earlier
    call returned.  A run that completes made no call that raised. *)
Theorem X7_exception_origin {E} (lib : Lib E) :
  (forall A (p : Prog A),
      notebook_cell p ->
      forall w x w' log,
        run lib p w = (inl x, w', log) ->
        (exists pre ev,
            log = pre ++ [ev] /\ raised ev x /\ Forall returned pre) \/
        (own_exception x /\ Forall returned log)) /\
  (forall w x w' log,
      run lib notebook w = (inl x, w', log) ->
      (exists pre ev,
          log = pre ++ [ev] /\ raised ev x /\ Forall returned pre) \/
      (own_exception x /\ Forall returned log)) /\
  (forall w w' log,
      run lib notebook w = (inr tt, w', log) -> Forall returned log).
Proof.
  split; [|split].
  - intros A p Hp. apply exception_origin.
    + destruct Hp as [| |A' p' Hp]; [intros r; exact I..|].
      apply computing_cell_handler_free, Hp.
    + destruct Hp as [| |A' p' Hp]; [intros r; exact I..|].
      apply computing_cell_raises_only, Hp.
  - apply exception_origin;
      [exact notebook_handler_free|exact notebook_raises_only].
  - intros w w' log. apply completed_all_returned, notebook_handler_free.
Qed.

Lemma X7_witness :
  exists w' log,
    run failing_lib notebook demo_world = (inl demo_error, w', log) /\
    ((exists pre ev,
         log = pre ++ [ev] /\ raised ev demo_error /\ Forall returned pre) \/
     (own_exception demo_error /\ Forall returned log)).
Proof.
  assert (Ho : (run failing_lib notebook demo_world).1.1 = inl demo_error)
    by (vm_compute; reflexivity).
  pose proof (run_outcome failing_lib notebook demo_world) as Hrun.
  rewrite Ho in Hrun. eexists _, _. split; [exact Hrun|].
  destruct (X7_exception_origin failing_lib) as (_ & Hnb & _).
  exact (Hnb _ _ _ _ Hrun).
Defined.

(** ** The comparison loop, however it ends *)

(** Runs a program one statement at a time, following every outcome of
    every call and of every expression that can raise. *)
Ltac run_any :=
  repeat (cbn [run mbind Prog_bind bind call lift];
          match goal with
          | |- context [step ?lib ?c ?w] =>
              destruct (step lib c w) as [[?|?] ?]
          | |- context [lift ?r] => destruct r as [?|?]
          | |- context [bind (let '(_, _) := ?x in _) _] => destruct x
          end).

Section AnyOutcome.
Context {E : Type} (lib : Lib E).

Lemma run_for_each_cons {A} (x : A) (t : list A) (body : A -> Prog unit) w :
  run lib (for_each (x :: t) body) w =
    let '(r, w1, log1) := run lib (body x) w in
    match r with
    | inl e => (inl e, w1, log1)
    | inr _ =>
        let '(r2, w2, log2) := run lib (for_each t body) w1 in
        (r2, w2, log1 ++ log2)
    end.
Proof. simpl for_each. rewrite run_bind. reflexivity. Qed.

(** One pass constructs at most one estimator; the estimator it
    constructed it fits, once and on [data]; a pass that completes
    constructed one. *)
Lemma comparison_body_fits fig data i entry w r w' log :
  run lib (comparison_body fig data (i, entry)) w = (r, w', log) ->
  exists ests,
    (length ests <= 1)%nat /\
    (forall u, r = inr u -> length ests = 1%nat) /\
    omap constructed log = map (pair entry) ests /\
    omap fitted log = map (fun o => (o, data)) ests.
Proof.
  destruct entry as [[algo args] kw].
  unfold comparison_body, first_two_rows_of_T, hide_axes.
  run_any; intros [= <- <- <-];
    first [ exists []; repeat split; simpl; first [lia|discriminate|reflexivity]
          | eexists [_]; repeat split; simpl; first [lia|reflexivity] ].
Qed.
(** A loop of such passes constructs an estimator for the entries of a
    prefix of its list, in order, and fits each once. *)
Lemma comparison_loop_fits fig data entries w r w' log :
  run lib (for_each entries (comparison_body fig data)) w = (r, w', log) ->
  exists ests,
    (length ests <= length entries)%nat /\
    (forall u, r = inr u -> length ests = length entries) /\
    omap constructed log = zip entries.*2 ests /\
    omap fitted log = map (fun o => (o, data)) ests.
Proof.
  revert w r w' log.
  induction entries as [|[i entry] t IH]; intros w r w' log.
  - simpl. intros [= <- <- <-]. exists []. repeat split; simpl; lia.
  - rewrite run_for_each_cons.
    destruct (run lib (comparison_body fig data (i, entry)) w)
      as [[rb w1] log1] eqn:Hb.
    apply comparison_body_fits in Hb as (ests1 & Hle & Hdone & Hc & Hf).
    destruct rb as [e|u].
    + intros [= <- <- <-]. exists ests1.
      destruct ests1 as [|o [|o2 rest]]; simpl in *; try lia;
        repeat split; try lia; try discriminate; try assumption.
      rewrite Hc. destruct (list_fmap _ _ snd t); reflexivity.
    + specialize (Hdone u eq_refl).
      destruct ests1 as [|o [|o2 rest]]; try discriminate.
      destruct (run lib (for_each t (comparison_body fig data)) w1)
        as [[r2 w2] log2] eqn:Ht.
      apply IH in Ht as (ests & Hle2 & Hdone2 & Hc2 & Hf2).
      intros [= <- <- <-]. exists (o :: ests).
      rewrite !omap_app, Hc, Hc2, Hf, Hf2. simpl.
      repeat split; try lia.
      intros u2 Hu. rewrite (Hdone2 u2 Hu). reflexivity.
Qed.
End AnyOutcome.

(** X8: however a run of cell 11 ends (completed, or cut short by an
    exception at any point), the estimators it constructed are those of a
    prefix of [algo_combos], in order and with the listed arguments, and
    every estimator it constructed was passed to [fit_predict] exactly
    once, with [data]: none is skipped, repeated or left unfitted, and no
    other object is fitted.  A completed run went through all seven. *)
Theorem X8_cell11_fits_what_it_constructs
    {E} (lib : Lib E) (data : ndarray) (w : World E)
    (r : result unit) (w' : World E) (log : list Event) :
  run lib (cell11 data) w = (r, w', log) ->
  exists ests,
    (length ests <= 7)%nat /\
    (r = inr tt -> length ests = 7%nat) /\
    omap constructed log = zip algo_combos ests /\
    omap fitted log = map (fun o => (o, data)) ests.
Proof.
  unfold cell11.
  pose proof (run_call lib (plt_figure [("figsize", PPair 20 20)]) w) as Hfig.
  cbn [ret] in Hfig. rewrite run_bind, Hfig. clear Hfig.
  destruct (step lib (plt_figure _) w) as [[e|fig] w1].
  { intros [= <- <- <-]. exists []. repeat split; simpl; try lia.
    discriminate. }
  rewrite run_bind.
  destruct (run lib (for_each _ (comparison_body fig data)) w1)
    as [[rl w2] log2] eqn:Hloop.
  apply comparison_loop_fits in Hloop as (ests & Hle & Hdone & Hc & Hf).
  simpl in Hle. change ((enumerate algo_combos 1).*2) with algo_combos in Hc.
  destruct rl as [e|u].
  - intros [= <- <- <-]. exists ests.
    split; [exact Hle|]. split; [discriminate|].
    rewrite <- Hc, <- Hf. split; reflexivity.
  - specialize (Hdone u eq_refl). simpl in Hdone.
    pose proof (run_call lib (tight_layout fig) w2) as Hlay.
    cbn [ret] in Hlay. rewrite Hlay. clear Hlay.
    destruct (step lib (tight_layout fig) w2) as [[e|[]] w3];
      intros [= <- <- <-]; exists ests;
      (split; [exact Hle|]); (split; [intros _; exact Hdone|]);
      rewrite <- Hc, <- Hf; simpl; rewrite !omap_app; simpl;
      rewrite !app_nil_r; split; reflexivity.
Qed.

Lemma X8_witness :
  exists r w' log,
    run failing_lib (cell11 demo_data) loaded_world = (r, w', log) /\
    r = inl demo_error /\
    exists ests,
      (length ests <= 7)%nat /\
      (r = inr tt -> length ests = 7%nat) /\
      omap constructed log = zip algo_combos ests /\
      omap fitted log = map (fun o => (o, demo_data)) ests.
Proof.
  pose proof (run_outcome failing_lib (cell11 demo_data) loaded_world) as Hrun.
  eexists _, _, _. split; [exact Hrun|].
  split; [vm_compute; reflexivity|].
  exact (X8_cell11_fits_what_it_constructs failing_lib _ _ _ _ _ Hrun).
Defined.

(** ** Download and load (cells 6 and 7) *)




(** ** What the scatter plots are given *)

Ltac split_log :=
  repeat first [ apply Forall_nil_2
               | apply Forall_cons; split
               | apply Forall_app; split ].

(** The colour list among the keyword arguments of a scatter call. *)
Ltac find_colours :=
  let cs := fresh "cs" in
  let Hin := fresh "Hin" in
  intros cs Hin; unfold plot_kwds in Hin;
  repeat (apply elem_of_cons in Hin as [Hin|Hin];
          [first [discriminate | injection Hin as <-]|]);
  try (apply elem_of_nil in Hin; contradiction).

Section Sizes.
Context {E : Type} (lib : Lib E).
Hypothesis Hlib : one_label_per_point lib.

Lemma fit_predict_length est data (w : World E) labels w' :
  step lib (fit_predict est data) w = (inr labels, w') ->
  length labels = length (rows data).
Proof.
  simpl. destruct (lib_call lib (fit_predict est data) (ext w)) as [r e] eqn:Hc.
  intros [= -> _]. eapply Hlib, Hc.
Qed.

Lemma length_column (a : ndarray) (j : nat) :
  length (column a j) = length (rows a).
Proof. unfold column. apply length_map. Qed.

Lemma comparison_body_sizes fig data entry w w' log :
  run lib (comparison_body fig data entry) w = (inr tt, w', log) ->
  Forall (fun ev => scatter_sizes (length (rows data)) (ev_call ev)) log.
Proof.
  destruct entry as [i [[algo args] algo_kwargs]].
  unfold comparison_body, first_two_rows_of_T, hide_axes. intros H.
  invert_run.
  match goal with H : nd_getitem _ 0 = _ |- _ => apply T_row0 in H as -> end.
  match goal with H : nd_getitem _ 1 = _ |- _ => apply T_row1 in H as -> end.
  match goal with
  | H : step _ (fit_predict _ _) _ = _ |- _ => apply fit_predict_length in H
  end.
  match goal with
  | H : label_colors _ _ _ = inr _ |- _ => apply label_colors_length in H
  end.
  split_log; simpl; try exact I.
  rewrite !length_column. repeat split. find_colours. congruence.
Qed.

Lemma cell11_sizes data w w' log :
  run lib (cell11 data) w = (inr tt, w', log) ->
  Forall (fun ev => scatter_sizes (length (rows data)) (ev_call ev)) log.
Proof.
  unfold cell11. intros H. invert_run.
  match goal with
  | H : run _ (for_each _ _) _ = _ |- _ =>
      apply run_for_each_inr in H as (logs & -> & HF)
  end.
  split_log; simpl; try exact I.
  apply Forall_concat.
  induction HF as [|entry lg l ls (w1 & w2 & Hb) _ IH]; constructor.
  - eapply comparison_body_sizes, Hb.
  - exact IH.
Qed.

Lemma cell16_17_sizes hdbs data w out w' log :
  run lib (labels ← cell16 hdbs data; cell17 data labels) w
  = (inr out, w', log) ->
  Forall (fun ev => scatter_sizes (length (rows data)) (ev_call ev)) log.
Proof.
  unfold cell16, cell17. intros H. invert_run.
  match goal with
  | H : unpack_xy (rows (T _)) = inr (_, _) |- _ =>
      apply unpack_xy_columns in H as [-> ->]
  end.
  match goal with
  | H : step _ (fit_predict _ _) _ = _ |- _ => apply fit_predict_length in H
  end.
  match goal with
  | H : label_colors _ _ _ = inr _ |- _ => apply label_colors_length in H
  end.
  split_log; simpl; try exact I.
  rewrite !length_column. repeat split. find_colours. congruence.
Qed.
End Sizes.

Lemma demo_one_label_per_point : one_label_per_point demo_lib.
Proof.
  intros o X e labels e' H. simpl in H. injection H as <- _.
  unfold demo_labels. apply length_map.
Qed.

(** X10: the colours match the points.  With a library whose
    [fit_predict] returns one label per sample, every scatter call of a
    completed run of cell 11, and of cells 16 and 17, is given as many
    abscissas, ordinates and colours as [data] has points: the
    comprehension over the labels neither drops nor adds an entry, and
    [data.T] is split into whole columns. *)
Theorem X10_one_colour_per_point {E} (lib : Lib E) :
  one_label_per_point lib ->
  (forall data w w' log,
      run lib (cell11 data) w = (inr tt, w', log) ->
      Forall (fun ev => scatter_sizes (length (rows data)) (ev_call ev)) log) /\
  (forall hdbs data w out w' log,
      run lib (labels ← cell16 hdbs data; cell17 data labels) w
      = (inr out, w', log) ->
      Forall (fun ev => scatter_sizes (length (rows data)) (ev_call ev)) log).
Proof.
  intros Hlib. split.
  - apply cell11_sizes, Hlib.
  - apply cell16_17_sizes, Hlib.
Qed.

Lemma X10_witness :
  one_label_per_point demo_lib /\
  exists w' log,
    run demo_lib (cell11 demo_data) loaded_world = (inr tt, w', log) /\
    Forall (fun ev => scatter_sizes 4 (ev_call ev)) log.
Proof.
  split; [exact demo_one_label_per_point|].
  assert (Ho : (run demo_lib (cell11 demo_data) loaded_world).1.1 = inr tt)
    by (vm_compute; reflexivity).
  pose proof (run_outcome demo_lib (cell11 demo_data) loaded_world) as Hrun.
  rewrite Ho in Hrun. eexists _, _. split; [exact Hrun|].
  destruct (X10_one_colour_per_point demo_lib demo_one_label_per_point)
    as [Hloop _].
  exact (Hloop _ _ _ _ Hrun).
Defined.

(** ** The palette handed to the condensed tree (cells 16, 17 and 20) *)

(** X11: the palette that cell 20 passes to the condensed-tree plot as
    [selection_palette] is the one cell 17 built from the labels of cell
    16: it has one colour per distinct label, hence at least one per
    cluster (the non-negative labels), and one to spare when there is
    noise. *)
Theorem X11_selection_palette_covers_clusters
    {E} (lib : Lib E) (hdbs : obj) (data : ndarray) (w w' : World E)
    (log : list Event) :
  run lib (labels ← cell16 hdbs data;
           '(color_palette, _) ← cell17 data labels;
           cell20 hdbs color_palette) w = (inr tt, w', log) ->
  exists labels color_palette,
    Ev (fit_predict hdbs data) (inr labels) ∈ log /\
    Ev (condensed_tree_plot hdbs
          [("select_clusters", PBool true);
           ("selection_palette", PColors color_palette)]) (inr tt) ∈ log /\
    length color_palette = length (np_unique labels) /\
    (length (filter (fun x => (0 <= x)%Z) (np_unique labels))
     <= length color_palette)%nat /\
    ((-1)%Z ∈ labels ->
     (length (filter (fun x => (0 <= x)%Z) (np_unique labels))
      < length color_palette)%nat).
Proof.
  unfold cell16, cell17, cell20. intros H. invert_run.
  match goal with
  | H : step _ (sns_color_palette _ _) _ = _ |- _ =>
      apply step_palette in H as [Hlen _]; rewrite Nat2Z.id in Hlen
  end.
  match goal with
  | H : step _ (fit_predict _ _) _ = (inr ?labels, _) |- _ =>
      rename labels into found
  end.
  eexists found, _. split; [|split; [|split; [exact Hlen|]]].
  - set_solver.
  - set_solver.
  - rewrite Hlen. split; [apply length_filter|].
    intros Hnoise. apply elem_of_np_unique in Hnoise.
    apply list_elem_of_split in Hnoise as (before & after & Hsplit).
    rewrite Hsplit, filter_app, filter_cons_False, !length_app by lia.
    simpl. pose proof (length_filter (fun x => (0 <= x)%Z) before).
    pose proof (length_filter (fun x => (0 <= x)%Z) after). lia.
Qed.

Lemma X11_witness :
  exists w' log,
    run demo_lib (labels ← cell16 0%nat demo_data;
                  '(color_palette, _) ← cell17 demo_data labels;
                  cell20 0%nat color_palette) loaded_world
    = (inr tt, w', log) /\
    exists labels color_palette,
      Ev (fit_predict 0%nat demo_data) (inr labels) ∈ log /\
      Ev (condensed_tree_plot 0%nat
            [("select_clusters", PBool true);
             ("selection_palette", PColors color_palette)]) (inr tt) ∈ log /\
      length color_palette = length (np_unique labels) /\
      (length (filter (fun x => (0 <= x)%Z) (np_unique labels))
       <= length color_palette)%nat /\
      ((-1)%Z ∈ labels ->
       (length (filter (fun x => (0 <= x)%Z) (np_unique labels))
        < length color_palette)%nat).
Proof.
  set (p := labels ← cell16 0%nat demo_data;
            '(color_palette, _) ← cell17 demo_data labels;
            cell20 0%nat color_palette).
  assert (Ho : (run demo_lib p loaded_world).1.1 = inr tt)
    by (vm_compute; reflexivity).
  pose proof (run_outcome demo_lib p loaded_world) as Hrun.
  rewrite Ho in Hrun. eexists _, _. split; [exact Hrun|].
  exact (X11_selection_palette_covers_clusters demo_lib _ _ _ _ _ Hrun).
Defined.

(** ** The two ways of splitting an array into columns *)

Lemma py_getitem_out {A} (l : list A) (i : Z) :
  ~ (- Z.of_nat (length l) <= i < Z.of_nat (length l))%Z ->
  py_getitem l i = inl IndexError.
Proof.
  intros Hi. destruct (py_getitem l i) as [x|a] eqn:H.
  - apply py_getitem_inl in H as [-> _]. reflexivity.
  - apply py_getitem_inr in H. contradiction.
Qed.

Lemma rows_T_two_or_more (a : ndarray) (n : nat) :
  ncols a = S (S n) ->
  rows (T a) = column a 0 :: column a 1 :: map (column a) (seq 2 n).
Proof. unfold T. simpl. intros ->. reflexivity. Qed.

(** X12: [data.T[0], data.T[1]] (cells 8, 11, 25, 28 and 30) and the
    starred [data.T] (cell 17, and the test points of cells 28 and 30)
    agree on arrays of two columns, and only there.  The first takes the
    first two columns of any array that has at least two and raises
    IndexError otherwise, without any call; the second takes the two
    columns of an array that has exactly two and is a TypeError for any
    other width.  So data with a third coordinate is plotted by cell 8 and
    by both loops, its third coordinate ignored, and stops cell 17. *)
Theorem X12_two_ways_of_splitting_the_columns
    {E} (lib : Lib E) (data : ndarray) (w : World E) :
  run lib (first_two_rows_of_T data) w
  = (if (2 <=? ncols data)%nat
     then inr (column data 0, column data 1)
     else inl IndexError, w, []) /\
  unpack_xy (rows (T data))
  = if (ncols data =? 2)%nat
    then inr (column data 0, column data 1)
    else inl TypeError.
Proof.
  split.
  - unfold first_two_rows_of_T, nd_getitem.
    destruct (ncols data) as [|[|n]] eqn:Hn.
    + unfold T. rewrite Hn. reflexivity.
    + unfold T. rewrite Hn. reflexivity.
    + rewrite (rows_T_two_or_more data n Hn).
      set (l := column data 0 :: column data 1 :: _).
      destruct (py_getitem_nonneg l 0) as (x & Hx & Hx0);
        [subst l; simpl; lia|].
      destruct (py_getitem_nonneg l 1) as (y & Hy & Hy1);
        [subst l; simpl; lia|].
      subst l. simpl in Hx0, Hy1. injection Hx0 as <-. injection Hy1 as <-.
      rewrite !run_bind, Hx. simpl. rewrite Hy. reflexivity.
  - unfold T. simpl. destruct (ncols data) as [|[|[|n]]]; reflexivity.
Qed.

Lemma X12_witness :
  (run demo_lib (first_two_rows_of_T data_3d) demo_world).1.1
  = inr ([0.1; -0.3], [0.2; 0.25]) /\
  unpack_xy (rows (T data_3d)) = inl TypeError.
Proof.
  destruct (X12_two_ways_of_splitting_the_columns demo_lib data_3d demo_world)
    as [Hfirst Hall].
  rewrite Hfirst, Hall. split; reflexivity.
Defined.

(** ** The prediction section (cells 27 to 30) *)

(** X13: the model that predicts is the model that was prepared for it.
    In a completed run of cells 27 to 30, [approximate_predict] is given
    the object that [fit] returned in cell 27 for an estimator
    constructed with [prediction_data=True], and the test points that
    cell 28 generated and plotted; cell 30 colours the new points by the
    predicted labels with the palette of cell 28 and plots the training
    data in the colours that cell 28 computed from the same model. *)
Theorem X13_prediction_uses_the_model_of_cell27
    {E} (lib : Lib E) (data : ndarray) (w w' : World E) (log : list Event) :
  run lib (hdbs ← cell27 data;
           '(test_points, color_palette, cluster_colors) ← cell28 hdbs data;
           '(test_labels, _) ← cell29 hdbs test_points;
           cell30 data test_points color_palette cluster_colors test_labels) w
  = (inr tt, w', log) ->
  exists est hdbs raw color_palette labels probabilities cluster_colors fig
         test_labels strengths colors fig',
    log = [ Ev (estimator_new HDBSCAN []
                  [("min_cluster_size", PInt 20);
                   ("prediction_data", PBool true)]) (inr est);
            Ev (fit est data) (inr hdbs) ]
          ++ cell28_log hdbs data raw (nd_sub_scalar raw 0.5) color_palette
               labels probabilities cluster_colors fig
          ++ cell29_30_log hdbs data (nd_sub_scalar raw 0.5) cluster_colors
               test_labels strengths colors fig' /\
    test_colors color_palette test_labels = inr colors.
Proof.
  intros H. unfold cell27, cell29, cell30 in H. invert_run.
  match goal with
  | H : run _ (cell28 _ _) _ = _ |- _ =>
      apply cell28_trace in H as (raw & labels & probs & fig & -> & ->)
  end.
  repeat match goal with
  | H : run _ (first_two_rows_of_T _) _ = (inr (_, _), _, _) |- _ =>
      apply run_first_two_rows in H as (-> & -> & -> & ->)
  | H : unpack_xy (rows (T _)) = inr (_, _) |- _ =>
      apply unpack_xy_columns in H as [-> ->]
  end.
  eexists _, _, raw, _, labels, probs, _, fig, _, _, _, _.
  split; [reflexivity|eassumption].
Qed.

Lemma X13_witness :
  exists w' log,
    run demo_lib
      (hdbs ← cell27 demo_data;
       '(test_points, color_palette, cluster_colors) ← cell28 hdbs demo_data;
       '(test_labels, _) ← cell29 hdbs test_points;
       cell30 demo_data test_points color_palette cluster_colors test_labels)
      loaded_world = (inr tt, w', log) /\
    exists hdbs test_points out,
      Ev (approximate_predict hdbs test_points) (inr out) ∈ log.
Proof.
  set (p := hdbs ← cell27 demo_data;
            '(test_points, color_palette, cluster_colors) ← cell28 hdbs demo_data;
            '(test_labels, _) ← cell29 hdbs test_points;
            cell30 demo_data test_points color_palette cluster_colors
              test_labels).
  assert (Ho : (run demo_lib p loaded_world).1.1 = inr tt)
    by (vm_compute; reflexivity).
  pose proof (run_outcome demo_lib p loaded_world) as Hrun.
  rewrite Ho in Hrun. eexists _, _. split; [exact Hrun|].
  destruct (X13_prediction_uses_the_model_of_cell27 demo_lib _ _ _ _ Hrun)
    as (est & hdbs & raw & pal & labels & probs & cols & fig & tl & st
        & colors & fig' & Hlog & _).
  exists hdbs, (nd_sub_scalar raw 0.5), (tl, st).
  rewrite Hlog. apply elem_of_app. right. apply elem_of_app. right.
  unfold cell29_30_log. left.
Defined.

(** ** Every estimator of the notebook *)

Lemma quiet_log (log : list Event) :
  Forall (fun ev => ~ trains (ev_call ev)) log ->
  omap constructed log = [] /\ omap fitted log = [] /\
  omap fit_called log = [].
Proof.
  induction 1 as [|[c o] t Hc _ (IH1 & IH2 & IH3)]; [auto|].
  destruct c; simpl in *; try contradiction (Hc I); auto.
Qed.

Lemma quiet_run {E} (lib : Lib E) {A} (p : Prog A) :
  calls_all (fun c => ~ trains c) p ->
  forall w r w' log,
    run lib p w = (r, w', log) ->
    omap constructed log = [] /\ omap fitted log = [] /\
    omap fit_called log = [].
Proof.
  intros Hp w r w' log Hrun. apply quiet_log.
  pose proof (calls_all_log lib _ p Hp w) as H. rewrite Hrun in H. exact H.
Qed.

Ltac walk_quiet :=
  unfold_cells; unfold test_colors;
  walk_calls_all ltac:(simpl; intros []).

Lemma cell11_log_fits fig data its :
  length its = 7%nat ->
  omap constructed (cell11_log fig data its)
  = zip algo_combos (map it_est its) /\
  omap fitted (cell11_log fig data its)
  = map (fun o => (o, data)) (map it_est its) /\
  omap fit_called (cell11_log fig data its) = [].
Proof.
  intros Hlen.
  do 8 (destruct its as [|? its]; try discriminate Hlen).
  repeat split; reflexivity.
Qed.

Lemma cell25_log_fits fig data passes :
  length passes = 4%nat ->
  omap constructed (cell25_log fig data passes)
  = zip_with (fun v ps =>
                (HDBSCAN, [],
                 [("min_cluster_size", PInt 50); ("min_samples", PInt v)],
                 ms_est ps)) min_sample_vals passes /\
  omap fitted (cell25_log fig data passes) = [] /\
  omap fit_called (cell25_log fig data passes)
  = map (fun ps => (ms_est ps, data)) passes.
Proof.
  intros Hlen.
  do 5 (destruct passes as [|? passes]; try discriminate Hlen).
  repeat split; reflexivity.
Qed.

(** X14: every estimator of the notebook is trained, once, on the loaded
    data.  A completed run of the whole notebook constructs thirteen
    estimators (the seven of the comparison, the HDBSCAN of cell 15, the
    four of cell 25 and the HDBSCAN with prediction data of cell 27), in
    this order and with the arguments written in the cells; each is
    passed exactly once to [fit_predict] (the first eight) or to [fit]
    (the last five), always with the array that [np.load] returned; and
    nothing else is trained. *)
Theorem X14_every_estimator_is_trained_once
    {E} (lib : Lib E) (w w' : World E) (log : list Event) :
  run lib notebook w = (inr tt, w', log) ->
  exists data ests hdbs passes est,
    Ev (np_load data_file) (inr data) ∈ log /\
    length ests = 7%nat /\ length passes = 4%nat /\
    omap constructed log
    = zip algo_combos ests
      ++ [(HDBSCAN, [], [("min_cluster_size", PInt 20)], hdbs)]
      ++ zip_with (fun v ps =>
                     (HDBSCAN, [],
                      [("min_cluster_size", PInt 50); ("min_samples", PInt v)],
                      ms_est ps)) min_sample_vals passes
      ++ [(HDBSCAN, [],
           [("min_cluster_size", PInt 20); ("prediction_data", PBool true)],
           est)] /\
    omap fitted log = map (fun o => (o, data)) ests ++ [(hdbs, data)] /\
    omap fit_called log
    = map (fun ps => (ms_est ps, data)) passes ++ [(est, data)].
Proof.
  unfold notebook. intros H. invert_run.
  match goal with
  | H : run _ (cells_after_load _) _ = _ |- _ =>
      unfold cells_after_load in H
  end.
  invert_run.
  match goal with
  | H : run _ cell7 _ = (inr ?data, _, _) |- _ => exists data
  end.
  match goal with
  | H : run _ (cell11 ?d) _ = _ |- _ =>
      apply cell11_trace in H as (fig11 & its & Hlen11 & _ & ->);
      destruct (cell11_log_fits fig11 d its Hlen11) as (Hc11 & Hf11 & Hg11)
  end.
  match goal with
  | H : run _ (cell25 ?d) _ = _ |- _ =>
      apply cell25_trace in H as (fig25 & passes & Hlen25 & ->);
      destruct (cell25_log_fits fig25 d passes Hlen25) as (Hc25 & Hf25 & Hg25)
  end.
  match goal with
  | H : run _ cell15 _ = (inr ?hdbs, _, _) |- _ =>
      exists (map it_est its), hdbs, passes; unfold cell15 in H
  end.
  match goal with
  | H : run _ (cell16 _ _) _ = _ |- _ => unfold cell16 in H
  end.
  match goal with
  | H : run _ (cell27 _) _ = _ |- _ => unfold cell27 in H
  end.
  match goal with
  | H : run _ cell7 _ = _ |- _ => unfold cell7 in H
  end.
  invert_run.
  match goal with
  | H : step _ (estimator_new _ _ [_; ("prediction_data", _)]) _
        = (inr ?est, _) |- _ => exists est
  end.
  repeat match goal with
  | H : run ?l ?p _ = (_, _, ?lg) |- _ =>
      let Hq := fresh "Hq" in
      assert (Hq := quiet_run l p ltac:(walk_quiet) _ _ _ _ H);
      destruct Hq as (? & ? & ?); clear H
  end.
  rewrite length_map.
  split; [rewrite !elem_of_app; auto 20 using list_elem_of_here|].
  split; [exact Hlen11|]. split; [exact Hlen25|].
  rewrite !omap_app.
  repeat match goal with H : omap _ _ = _ |- _ => rewrite H end.
  simpl. rewrite ?app_nil_r. repeat split; reflexivity.
Qed.

Lemma X14_witness :
  exists w' log,
    run demo_lib notebook demo_world = (inr tt, w', log) /\
    length (omap constructed log) = 13%nat /\
    length (omap fitted log) = 8%nat /\
    length (omap fit_called log) = 5%nat.
Proof.
  assert (Ho : (run demo_lib notebook demo_world).1.1 = inr tt)
    by (vm_compute; reflexivity).
  pose proof (run_outcome demo_lib notebook demo_world) as Hrun.
  rewrite Ho in Hrun. eexists _, _. split; [exact Hrun|].
  destruct (X14_every_estimator_is_trained_once demo_lib _ _ _ Hrun)
    as (data & ests & hdbs & passes & est & _ & Hn & Hm & -> & -> & ->).
  rewrite !length_app, !length_map, length_zip, length_zip_with, Hn, Hm.
  repeat split; reflexivity.
Defined.
